(** * Index converter: the marker splitter and the index parser

    A shallow embedding of [extract_text], [parse_index] and
    [format_pages] of [index_converter.py], and the properties of the
    index-text parser checked against it.

    Conventions of the embedding.
    - A Python [str] is a [string]; a character is an [ascii], read as
      the code point of the same number, so the texts covered are those
      whose code points lie below 256.  The character classes
      ([isspace], [isalpha], decimal digits, line boundaries) are the
      ones Python's Unicode database gives on that range.
    - A Python [int] is a [Z].
    - The dictionary [book_pages] is a [gmap Z (list string)].
    - An operation that can raise answers in [result]; the exceptions
      are the three the modelled code could meet. *)

From Stdlib Require Import String Ascii ZArith NArith List Bool Lia.
From Stdlib Require Import DecimalString.
From stdpp Require Import base option list strings gmap.

Open Scope string_scope.
Open Scope list_scope.

#[local] Arguments String.append !_ _ / : simpl nomatch.

(* ================================================================= *)
(** ** Exceptions *)

Inductive exn : Type :=
  | KeyError
  | IndexError
  | ValueError.

Inductive result (A : Type) : Type :=
  | Ok (a : A)
  | Raise (e : exn).

Arguments Ok {A} a.
Arguments Raise {A} e.

Definition bind {A B : Type} (m : result A) (k : A -> result B) : result B :=
  match m with
  | Ok a => k a
  | Raise e => Raise e
  end.

Notation "x <- m ;; k" := (bind m (fun x => k))
  (at level 100, m at next level, right associativity).

(** [for x in l: acc = f(acc, x)], stopping at the first exception. *)
Fixpoint foldM {A B : Type} (f : A -> B -> result A) (acc : A) (l : list B)
  : result A :=
  match l with
  | [] => Ok acc
  | x :: l' => acc' <- f acc x ;; foldM f acc' l'
  end.

(** A list comprehension whose element expression can raise. *)
Fixpoint comprehension {A B : Type} (f : A -> result B) (l : list A)
  : result (list B) :=
  match l with
  | [] => Ok []
  | x :: l' => y <- f x ;; ys <- comprehension f l' ;; Ok (y :: ys)
  end.

(** [l[i]] for a non-negative index. *)
Definition list_get {A : Type} (l : list A) (i : nat) : result A :=
  match l !! i with
  | Some x => Ok x
  | None => Raise IndexError
  end.

(** [d[k]]. *)
Definition dict_get (d : gmap Z (list string)) (k : Z) : result (list string) :=
  match d !! k with
  | Some v => Ok v
  | None => Raise KeyError
  end.

(** [range(a, b)]. *)
Definition py_range (a b : Z) : list Z := seqZ a (b - a).

(* ================================================================= *)
(** ** Characters *)

Definition TAB : ascii := "009"%char.
Definition LF : ascii := "010"%char.
Definition CR : ascii := "013"%char.
Definition DQUOTE : ascii := "034"%char.
Definition COMMA : ascii := ","%char.
Definition COLON : ascii := ":"%char.

Definition code (c : ascii) : N := N_of_ascii c.

Definition between (lo hi : N) (c : ascii) : bool :=
  ((lo <=? code c) && (code c <=? hi))%N.

(** [Py_UNICODE_ISSPACE] below 256: U+0009..U+000D, U+001C..U+0020,
    U+0085 and U+00A0.  It is the class of [str.strip()], of
    [str.split(None)] and of the pattern's [\s]. *)
Definition isspace (c : ascii) : bool :=
  between 9 13 c || between 28 32 c || between 133 133 c || between 160 160 c.

(** [\S]. *)
Definition nonspace (c : ascii) : bool := negb (isspace c).

(** [\d] in a [str] pattern: the decimal digits (category Nd), which
    below 256 are 0..9. *)
Definition isdigit (c : ascii) : bool := between 48 57 c.

(** The letters (general category L) below 256. *)
Definition isalpha (c : ascii) : bool :=
  between 65 90 c || between 97 122 c
  || between 170 170 c || between 181 181 c || between 186 186 c
  || between 192 214 c || between 216 246 c || between 248 255 c.

(** The line boundaries of [str.splitlines()] below 256. *)
Definition is_linebreak (c : ascii) : bool :=
  between 10 13 c || between 28 30 c || between 133 133 c.

Definition is_comma (c : ascii) : bool := Ascii.eqb c COMMA.

(* ================================================================= *)
(** ** The [str] methods the program calls *)

(** Truth value of a [str]: non-empty. *)
Definition truthy (s : string) : bool :=
  match s with
  | EmptyString => false
  | String _ _ => true
  end.

Fixpoint str_all (p : ascii -> bool) (s : string) : bool :=
  match s with
  | EmptyString => true
  | String c s' => p c && str_all p s'
  end.

(** The longest prefix of characters satisfying [p], and the rest. *)
Fixpoint span (p : ascii -> bool) (s : string) : string * string :=
  match s with
  | EmptyString => (EmptyString, EmptyString)
  | String c s' =>
      if p c then let '(m, r) := span p s' in (String c m, r)
      else (EmptyString, s)
  end.

Fixpoint lstrip_with (p : ascii -> bool) (s : string) : string :=
  match s with
  | EmptyString => EmptyString
  | String c s' => if p c then lstrip_with p s' else s
  end.

Fixpoint rstrip_with (p : ascii -> bool) (s : string) : string :=
  match s with
  | EmptyString => EmptyString
  | String c s' =>
      match rstrip_with p s' with
      | EmptyString => if p c then EmptyString else String c EmptyString
      | r => String c r
      end
  end.

(** [s.strip()]. *)
Definition strip (s : string) : string :=
  rstrip_with isspace (lstrip_with isspace s).

(** [s.rstrip(",")]: every trailing comma goes. *)
Definition rstrip_commas (s : string) : string := rstrip_with is_comma s.

(** [s.startswith(p)] returning what follows the prefix. *)
Fixpoint drop_prefix (p s : string) : option string :=
  match p, s with
  | EmptyString, _ => Some s
  | String a p', String b s' => if Ascii.eqb a b then drop_prefix p' s' else None
  | String _ _, EmptyString => None
  end.

(** [s.endswith(suffix)]. *)
Fixpoint endswith (s suffix : string) : bool :=
  String.eqb s suffix
  || match s with
     | EmptyString => false
     | String _ s' => endswith s' suffix
     end.

(** [s.find(sep)] as the pair of what precedes and what follows the
    leftmost occurrence of [sep]. *)
Fixpoint partition_first (sep s : string) : option (string * string) :=
  match drop_prefix sep s with
  | Some rest => Some (EmptyString, rest)
  | None =>
      match s with
      | EmptyString => None
      | String c s' =>
          match partition_first sep s' with
          | Some (a, b) => Some (String c a, b)
          | None => None
          end
      end
  end.

(** [sub in s]. *)
Definition str_in (sub s : string) : bool :=
  match partition_first sub s with
  | Some _ => true
  | None => false
  end.

(** [s.split(sep, 1)] for a non-empty [sep]. *)
Definition split1 (sep s : string) : list string :=
  match partition_first sep s with
  | Some (a, b) => [a; b]
  | None => [s]
  end.

(** [s.split(None, 1)]: skip leading whitespace, take the first run of
    non-whitespace, skip whitespace again and keep all that remains. *)
Definition split_ws1 (s : string) : list string :=
  match lstrip_with isspace s with
  | EmptyString => []
  | s1 =>
      let '(tok, rest) := span nonspace s1 in
      match lstrip_with isspace rest with
      | EmptyString => [tok]
      | rest' => [tok; rest']
      end
  end.

(** [s.split(",")]: every comma separates, empty fields are kept. *)
Fixpoint split_commas (s : string) : list string :=
  match s with
  | EmptyString => [EmptyString]
  | String c s' =>
      if is_comma c then EmptyString :: split_commas s'
      else match split_commas s' with
           | h :: t => String c h :: t
           | [] => [String c EmptyString]
           end
  end.

(** [sep.join(l)]. *)
Fixpoint join (sep : string) (l : list string) : string :=
  match l with
  | [] => EmptyString
  | [x] => x
  | x :: l' => x +:+ sep +:+ join sep l'
  end.

(** [s.isalpha()]. *)
Definition str_isalpha (s : string) : bool := truthy s && str_all isalpha s.

(** [s.splitlines()]: a CR LF pair is one boundary, and a boundary at
    the very end opens no further line. *)
Fixpoint splitlines (s : string) : list string :=
  match s with
  | EmptyString => []
  | String c s' =>
      if is_linebreak c then
        match s' with
        | String d s'' =>
            if Ascii.eqb c CR && Ascii.eqb d LF
            then EmptyString :: splitlines s''
            else EmptyString :: splitlines s'
        | EmptyString => [EmptyString]
        end
      else
        match splitlines s' with
        | h :: t => String c h :: t
        | [] => [String c EmptyString]
        end
  end.

(* ================================================================= *)
(** ** The pattern [(\d+)\s*:\s*(\S+)]

    [re] matches by backtracking: a greedy repetition first takes as
    many characters as it can and gives them back one at a time while
    the rest of the pattern fails.  The matcher is written that way, in
    continuation-passing style: the continuation receives what the
    repetition consumed and what is left. *)

(** [x*] for a character class [x], greedy. *)
Fixpoint re_star {R : Type} (p : ascii -> bool) (s : string)
    (k : string -> string -> option R) : option R :=
  match s with
  | EmptyString => k EmptyString s
  | String c s' =>
      if p c then
        match re_star p s' (fun m rest => k (String c m) rest) with
        | Some r => Some r
        | None => k EmptyString s
        end
      else k EmptyString s
  end.

(** [x+]: one character of the class, then [x*]. *)
Definition re_plus {R : Type} (p : ascii -> bool) (s : string)
    (k : string -> string -> option R) : option R :=
  match s with
  | EmptyString => None
  | String c s' =>
      if p c then re_star p s' (fun m rest => k (String c m) rest) else None
  end.

(** A literal character. *)
Definition re_char {R : Type} (a : ascii) (s : string)
    (k : string -> option R) : option R :=
  match s with
  | EmptyString => None
  | String c s' => if Ascii.eqb c a then k s' else None
  end.

(** [ref_pattern.match(s)]: anchored at the start of [s] only; the
    answer is [match.groups()]. *)
Definition ref_pattern_match (s : string) : option (string * string) :=
  re_plus isdigit s (fun book s1 =>
  re_star isspace s1 (fun _ s2 =>
  re_char COLON s2 (fun s3 =>
  re_star isspace s3 (fun _ s4 =>
  re_plus nonspace s4 (fun pages _ => Some (book, pages)))))).

(* ================================================================= *)
(** ** [int(book)]

    [int] is followed on the strings of decimal digits, the only ones
    the first group of the pattern delivers; on any other string the
    model raises [ValueError].  A string of more than
    [max_str_digits] digits makes [int] raise [ValueError] too: that is
    the interpreter's limit on conversions from [str] to [int], with
    its default value ([sys.int_info.default_max_str_digits]); it
    counts every digit, leading zeros included. *)

Definition max_str_digits : Z := 4300.

Definition digit_value (c : ascii) : option Z :=
  if isdigit c then Some (Z.of_N (code c) - 48)%Z else None.

Fixpoint int_digits (acc : Z) (s : string) : result Z :=
  match s with
  | EmptyString => Ok acc
  | String c s' =>
      match digit_value c with
      | Some d => int_digits (10 * acc + d)%Z s'
      | None => Raise ValueError
      end
  end.

Definition py_int (s : string) : result Z :=
  match s with
  | EmptyString => Raise ValueError
  | String _ _ =>
      if (max_str_digits <? Z.of_nat (String.length s))%Z
      then Raise ValueError
      else int_digits 0%Z s
  end.

(* ================================================================= *)
(** ** [format_pages] *)

Definition format_pages (pages : list string) : string :=
  match pages with
  | [] => EmptyString
  | _ => String DQUOTE (join ", " pages +:+ String DQUOTE EmptyString)
  end.

(* ================================================================= *)
(** ** [parse_index] *)

(** The three variables the loop of [parse_index] carries. *)
Record state : Type := State {
  data : list (list string);
  current_subject : string;
  book_pages : gmap Z (list string)
}.

(** [{i: [] for i in range(1, 7)}]. *)
Definition fresh_pages : gmap Z (list string) :=
  list_to_map ((fun i => (i, @nil string)) <$> py_range 1 7).

(** The state [parse_index] starts from. *)
Definition initial_state : state :=
  {| data := []; current_subject := EmptyString; book_pages := fresh_pages |}.

(** [[current_subject] + [format_pages(book_pages[i]) for i in range(1, 7)]]. *)
Definition subject_row (st : state) : result (list string) :=
  fields <- comprehension
              (fun i => pages <- dict_get (book_pages st) i ;; Ok (format_pages pages))
              (py_range 1 7) ;;
  Ok (current_subject st :: fields).

(** [[line] + [""] * 6]. *)
Definition divider_row (line : string) : list string :=
  line :: replicate 6 EmptyString.

(** [data.append(row)] followed by the two reassignments
    [current_subject = ""] and [book_pages = {...}]. *)
Definition flush (st : state) : result state :=
  row <- subject_row st ;;
  Ok {| data := data st ++ [row];
        current_subject := EmptyString;
        book_pages := fresh_pages |}.

(** Lines 103 to 107: the branch of a divider line. *)
Definition divider_line (st : state) (line : string) : result state :=
  data1 <- (if truthy (current_subject st)
            then row <- subject_row st ;; Ok (data st ++ [row])
            else Ok (data st)) ;;
  Ok {| data := data1 ++ [divider_row line];
        current_subject := EmptyString;
        book_pages := fresh_pages |}.

(** Line 109. *)
Definition split_parts (line : string) : list string :=
  if str_in (String TAB EmptyString) line
  then split1 (String TAB EmptyString) line
  else split_ws1 line.

(** Lines 111 and 112. *)
Definition capture_subject (st : state) (line : string) (parts : list string)
  : result state :=
  if negb (truthy (current_subject st)) && negb (endswith line ",")
  then p0 <- list_get parts 0 ;;
       Ok {| data := data st;
             current_subject := strip p0;
             book_pages := book_pages st |}
  else Ok st.

(** Lines 115 to 120: one pass of the loop over [refs]. *)
Definition add_ref (pages : gmap Z (list string)) (ref : string)
  : result (gmap Z (list string)) :=
  match ref_pattern_match (strip ref) with
  | Some (book, page) =>
      b <- py_int book ;;
      if ((1 <=? b) && (b <=? 6))%Z
      then l <- dict_get pages b ;; Ok (<[b := l ++ [page]]> pages)
      else Ok pages
  | None => Ok pages
  end.

(** Lines 113 to 120. *)
Definition collect_refs (st : state) (parts : list string) : result state :=
  p1 <- list_get parts 1 ;;
  pages <- foldM add_ref (book_pages st) (split_commas (rstrip_commas p1)) ;;
  Ok {| data := data st;
        current_subject := current_subject st;
        book_pages := pages |}.

(** Lines 121 to 124. *)
Definition flush_check (st : state) (line : string) : result state :=
  if negb (endswith line ",") && truthy (current_subject st)
  then flush st
  else Ok st.

(** Lines 109 to 124: the branch of a content line. *)
Definition content_line (st : state) (line : string) : result state :=
  let parts := split_parts line in
  st2 <- (if (1 <? length parts)%nat
          then st1 <- capture_subject st line parts ;; collect_refs st1 parts
          else Ok st) ;;
  flush_check st2 line.

(** The test of line 102. *)
Definition is_divider (line : string) : bool :=
  (String.length line =? 1)%nat && str_isalpha line.

(** The body of the loop, lines 99 to 124. *)
Definition process_line (st : state) (raw : string) : result state :=
  let line := strip raw in
  if negb (truthy line) then Ok st
  else if is_divider line then divider_line st line
  else content_line st line.

(** The loop from an arbitrary state. *)
Definition run (st : state) (lines : list string) : result state :=
  foldM process_line st lines.

(** Lines 125 to 127. *)
Definition finish (st : state) : result (list (list string)) :=
  if truthy (current_subject st)
  then row <- subject_row st ;; Ok (data st ++ [row])
  else Ok (data st).

Definition parse_index (lines : list string) : result (list (list string)) :=
  st <- run initial_state lines ;;
  finish st.

(* ================================================================= *)
(** ** [extract_text]

    Reading the file is the work of the document libraries; the model
    takes the extension [ext] (lower case, without its dot) and the
    [full_text] the reader of that format delivers. *)

Definition marker : string :=
  "Index" +:+ String LF
  "Note: The numbers indicate the book number, followed by the page number.".

(** [full_text.split(marker, 1)[1].strip() if marker in full_text else ""]. *)
Definition after_marker (full_text : string) : result string :=
  if str_in marker full_text
  then tail <- list_get (split1 marker full_text) 1 ;; Ok (strip tail)
  else Ok EmptyString.

Definition extract_text (ext full_text : string) : result (list string) :=
  text <- (if String.eqb ext "docx" then after_marker full_text
           else if String.eqb ext "pdf" then after_marker full_text
           else if String.eqb ext "txt" then after_marker full_text
           else Ok EmptyString) ;;
  Ok (splitlines text).

(* ================================================================= *)
(** ** Vocabulary of the statements *)

(** [a] followed by a tab and [b]: an index line with its two columns. *)
Definition tabbed (a b : string) : string := a +:+ String TAB b.

(** The six keys 1..6 are present in the dictionary. *)
Definition has_books (pages : gmap Z (list string)) : bool :=
  forallb (fun i => match pages !! i with Some _ => true | None => false end)
          (py_range 1 7).

(** The page list of book [i]. *)
Definition pages_of (pages : gmap Z (list string)) (i : Z) : list string :=
  default [] (pages !! i).

(** The six book fields of a row, formatted. *)
Definition book_fields (pages : gmap Z (list string)) : list string :=
  (fun i => format_pages (pages_of pages i)) <$> py_range 1 7.

(** The shape [<integer><optional whitespace>:<optional whitespace>
    <non-whitespace token>] at the start of [s]: [book] is the integer,
    [page] the whole token, which ends where [s] ends or where
    whitespace follows. *)
Definition ref_shape (s book page : string) : Prop :=
  exists w1 w2 rest : string,
    s = book +:+ w1 +:+ String COLON (w2 +:+ page +:+ rest)
    /\ truthy book = true /\ str_all isdigit book = true
    /\ str_all isspace w1 = true /\ str_all isspace w2 = true
    /\ truthy page = true /\ str_all nonspace page = true
    /\ match rest with
       | EmptyString => True
       | String c _ => isspace c = true
       end.

(** The pattern read in one pass, each repetition taking all it can
    and never giving back: the longest run of digits, whitespace, the
    colon, whitespace, the longest run of non-whitespace. *)
Definition ref_munch (s : string) : option (string * string) :=
  match span isdigit s with
  | (EmptyString, _) => None
  | (book, s1) =>
      match snd (span isspace s1) with
      | EmptyString => None
      | String c s3 =>
          if Ascii.eqb c COLON then
            match fst (span nonspace (snd (span isspace s3))) with
            | EmptyString => None
            | page => Some (book, page)
            end
          else None
      end
  end.

(** [sub] occurs in [s]. *)
Definition occurs (sub s : string) : Prop :=
  exists pre post : string, s = pre +:+ sub +:+ post.

(** The assignment of line 112 runs on [line] and changes
    [current_subject]. *)
Definition sets_subject (st : state) (line : string) : Prop :=
  (1 < length (split_parts line))%nat
  /\ exists st1 : state,
       capture_subject st line (split_parts line) = Ok st1
       /\ current_subject st1 <> current_subject st.

(** A trimmed line that takes the branch of line 108. *)
Definition content (line : string) : Prop :=
  strip line = line /\ truthy line = true /\ is_divider line = false.

(* ================================================================= *)
(** ** The callers of the two functions *)

(** Lines 201 to 204 (and 216 to 219, 227 to 230, 161 to 164), up to
    the call that writes the rows:
    [lines = extract_text(file)], [if not lines: raise ValueError(...)],
    [parsed_data = parse_index(lines)]. *)
Definition convert_file (ext full_text : string) : result (list (list string)) :=
  lines <- extract_text ext full_text ;;
  match lines with
  | [] => Raise ValueError
  | _ :: _ => parse_index lines
  end.

(** [l[i]] for any integer: a negative index counts from the end. *)
Definition py_index {A : Type} (l : list A) (i : Z) : result A :=
  if (0 <=? i)%Z then list_get l (Z.to_nat i)
  else if (0 <=? Z.of_nat (length l) + i)%Z
       then list_get l (Z.to_nat (Z.of_nat (length l) + i))
       else Raise IndexError.

(** What a call of [get_file_choice] ends with: [exit()], a returned
    pair, or an exception that its [except] clause lets through; in
    each case with the messages given to [log_entry]. *)
Inductive selection : Type :=
  | Exit (log : list string)
  | Return (files : option (list string)) (convert_all : option bool)
           (log : list string)
  | Uncaught (e : exn).

(** [get_file_choice], lines 48 to 71.  [files] is what [glob] found,
    [choice] the line the user typed and [as_int] the outcome of
    [int(choice)]; what is printed is left out. *)
Definition get_file_choice (files : list string) (choice : string)
    (as_int : result Z) : selection :=
  match files with
  | [] => Return None None []
  | _ :: _ =>
      if String.eqb choice "4" then Exit ["User quit from file selection"]
      else if String.eqb choice "0" then Return (Some files) (Some true) []
      else
        match (file_num <- as_int ;;
               f <- py_index files (file_num - 1) ;;
               Ok ([f],
                   if ((1 <=? file_num) && (file_num <=? Z.of_nat (length files)))%Z
                   then Some false else None)) with
        | Ok (chosen, flag) => Return (Some chosen) flag []
        | Raise ValueError => Return None None ["Invalid file selection"]
        | Raise IndexError => Return None None ["Invalid file selection"]
        | Raise e => Uncaught e
        end
  end.

(** Lines 191 to 216 of the main loop: the files that are converted
    after the pair [files, convert_all] came back. *)
Definition files_to_convert (files : option (list string))
    (convert_all : option bool) : result (list string) :=
  match files with
  | None => Ok []
  | Some fs =>
      match convert_all with
      | Some true => Ok fs
      | _ => f <- list_get fs 0 ;; Ok [f]
      end
  end.

(** *** The retries of the conversion of all files, lines 197 to 213 *)







(* ================================================================= *)
(** ** [parse_index] on the objects it creates

    In the program the rows, the page lists and the dictionary are
    objects that live in the interpreter's store and are changed in
    place by [append].  The module below follows [parse_index] at that
    level: a call receives the store as it is, with every object
    earlier calls have left in it, creates its own objects and returns
    the store it leaves together with the place of the list [data]. *)

Abbreviation loc := positive (only parsing).

Inductive object : Type :=
  | StrList (items : list string)
  | RowList (items : list loc)
  | Dict (items : gmap Z loc).

Abbreviation heap := (gmap positive object) (only parsing).

(** How a computation on the store ends: with a value, with an
    exception, or on a place that does not hold the kind of object the
    operation needs. *)
Inductive outcome (A : Type) : Type :=
  | Returns (a : A)
  | Raises (e : exn)
  | Wrong.

Arguments Returns {A} a.
Arguments Raises {A} e.
Arguments Wrong {A}.

Module InPlace.

Definition ret {A : Type} (a : A) : heap -> heap * outcome A :=
  fun h => (h, Returns a).

Definition bind {A B : Type} (m : heap -> heap * outcome A)
    (k : A -> heap -> heap * outcome B) : heap -> heap * outcome B :=
  fun h =>
    match m h with
    | (h', Returns a) => k a h'
    | (h', Raises e) => (h', Raises e)
    | (h', Wrong) => (h', Wrong)
    end.

Notation "x <~ m ;; k" := (bind m (fun x => k))
  (at level 100, m at next level, right associativity).

(** A computation that does not touch the store. *)
Definition lift {A : Type} (r : result A) : heap -> heap * outcome A :=
  fun h =>
    match r with
    | Ok a => (h, Returns a)
    | Raise e => (h, Raises e)
    end.

(** A new object, at a place the store does not use yet. *)
Definition new_object (o : object) : heap -> heap * outcome loc :=
  fun h => let l := fresh (dom h) in (<[l := o]> h, Returns l).

(** The items of a list of [str]. *)
Definition get_strs (l : loc) : heap -> heap * outcome (list string) :=
  fun h =>
    match h !! l with
    | Some (StrList items) => (h, Returns items)
    | _ => (h, Wrong)
    end.

(** [l.append(s)] on a list of [str]. *)
Definition append_str (l : loc) (s : string) : heap -> heap * outcome unit :=
  fun h =>
    match h !! l with
    | Some (StrList items) => (<[l := StrList (items ++ [s])]> h, Returns tt)
    | _ => (h, Wrong)
    end.

(** [data.append(row)]. *)
Definition append_row (l : loc) (row : loc) : heap -> heap * outcome unit :=
  fun h =>
    match h !! l with
    | Some (RowList items) => (<[l := RowList (items ++ [row])]> h, Returns tt)
    | _ => (h, Wrong)
    end.

(** [d[k]]. *)
Definition dict_item (d : loc) (k : Z) : heap -> heap * outcome loc :=
  fun h =>
    match h !! d with
    | Some (Dict items) =>
        match items !! k with
        | Some l => (h, Returns l)
        | None => (h, Raises KeyError)
        end
    | _ => (h, Wrong)
    end.

Fixpoint for_each {A : Type} (f : A -> heap -> heap * outcome unit) (l : list A)
  : heap -> heap * outcome unit :=
  match l with
  | [] => ret tt
  | x :: l' => _ <~ f x ;; for_each f l'
  end.

Fixpoint comprehension {A B : Type} (f : A -> heap -> heap * outcome B)
    (l : list A) : heap -> heap * outcome (list B) :=
  match l with
  | [] => ret []
  | x :: l' => y <~ f x ;; ys <~ comprehension f l' ;; ret (y :: ys)
  end.

(** The three variables of the loop: two places and a [str]. *)
Record frame : Type := Frame {
  data : loc;
  current_subject : string;
  book_pages : loc
}.

(** [{i: [] for i in range(1, 7)}]: a new list for every key, then
    the new dictionary. *)
Fixpoint new_lists (keys : list Z) (items : gmap Z loc)
  : heap -> heap * outcome (gmap Z loc) :=
  match keys with
  | [] => ret items
  | k :: keys' =>
      l <~ new_object (StrList []) ;;
      new_lists keys' (<[k := l]> items)
  end.

Definition new_book_pages : heap -> heap * outcome loc :=
  items <~ new_lists (py_range 1 7) ∅ ;;
  new_object (Dict items).

(** [[current_subject] + [format_pages(book_pages[i]) for i in range(1, 7)]]. *)
Definition subject_row (fr : frame) : heap -> heap * outcome loc :=
  fields <~ comprehension
              (fun i => l <~ dict_item (book_pages fr) i ;;
                        pages <~ get_strs l ;;
                        ret (format_pages pages))
              (py_range 1 7) ;;
  new_object (StrList (current_subject fr :: fields)).

(** Lines 122 to 124 (and 104, 126 for the first of them). *)
Definition flush (fr : frame) : heap -> heap * outcome frame :=
  row <~ subject_row fr ;;
  _ <~ append_row (data fr) row ;;
  pages <~ new_book_pages ;;
  ret {| data := data fr; current_subject := EmptyString; book_pages := pages |}.

(** Lines 103 to 107. *)
Definition divider_line (fr : frame) (line : string)
  : heap -> heap * outcome frame :=
  _ <~ (if truthy (current_subject fr)
        then row <~ subject_row fr ;; append_row (data fr) row
        else ret tt) ;;
  row <~ new_object (StrList (divider_row line)) ;;
  _ <~ append_row (data fr) row ;;
  pages <~ new_book_pages ;;
  ret {| data := data fr; current_subject := EmptyString; book_pages := pages |}.

(** Lines 111 and 112. *)
Definition capture_subject (fr : frame) (line : string) (parts : list string)
  : heap -> heap * outcome frame :=
  if negb (truthy (current_subject fr)) && negb (endswith line ",")
  then p0 <~ lift (list_get parts 0) ;;
       ret {| data := data fr; current_subject := strip p0;
              book_pages := book_pages fr |}
  else ret fr.

(** Lines 115 to 120. *)
Definition add_ref (pages : loc) (ref : string) : heap -> heap * outcome unit :=
  match ref_pattern_match (strip ref) with
  | Some (book, page) =>
      b <~ lift (py_int book) ;;
      if ((1 <=? b) && (b <=? 6))%Z
      then l <~ dict_item pages b ;; append_str l page
      else ret tt
  | None => ret tt
  end.

(** Lines 113 to 120. *)
Definition collect_refs (fr : frame) (parts : list string)
  : heap -> heap * outcome frame :=
  p1 <~ lift (list_get parts 1) ;;
  _ <~ for_each (add_ref (book_pages fr)) (split_commas (rstrip_commas p1)) ;;
  ret fr.

(** Lines 121 to 124. *)
Definition flush_check (fr : frame) (line : string)
  : heap -> heap * outcome frame :=
  if negb (endswith line ",") && truthy (current_subject fr)
  then flush fr
  else ret fr.

(** Lines 109 to 124. *)
Definition content_line (fr : frame) (line : string)
  : heap -> heap * outcome frame :=
  let parts := split_parts line in
  fr2 <~ (if (1 <? length parts)%nat
          then fr1 <~ capture_subject fr line parts ;; collect_refs fr1 parts
          else ret fr) ;;
  flush_check fr2 line.

(** Lines 99 to 124. *)
Definition process_line (fr : frame) (raw : string)
  : heap -> heap * outcome frame :=
  let line := strip raw in
  if negb (truthy line) then ret fr
  else if is_divider line then divider_line fr line
  else content_line fr line.

Fixpoint run (fr : frame) (lines : list string) : heap -> heap * outcome frame :=
  match lines with
  | [] => ret fr
  | raw :: lines' => fr' <~ process_line fr raw ;; run fr' lines'
  end.

(** Lines 94 to 96: the objects the variables start from are created
    by the call, whatever the store holds. *)
Definition start : heap -> heap * outcome frame :=
  rows <~ new_object (RowList []) ;;
  pages <~ new_book_pages ;;
  ret {| data := rows; current_subject := EmptyString; book_pages := pages |}.

(** Lines 125 to 127. *)
Definition finish (fr : frame) : heap -> heap * outcome loc :=
  _ <~ (if truthy (current_subject fr)
        then row <~ subject_row fr ;; append_row (data fr) row
        else ret tt) ;;
  ret (data fr).

(** Lines 94 to 127. *)
Definition parse_index (lines : list string) : heap -> heap * outcome loc :=
  fr0 <~ start ;;
  fr <~ run fr0 lines ;;
  finish fr.

End InPlace.

(** The rows a list of rows holds in the store. *)
Definition rows_at (h : heap) (l : loc) : option (list (list string)) :=
  match h !! l with
  | Some (RowList items) =>
      mapM (fun row => match h !! row with
                       | Some (StrList fields) => Some fields
                       | _ => None
                       end) items
  | _ => None
  end.

(** The places of the rows of a list of rows. *)
Definition row_places (h : heap) (l : loc) : list loc :=
  match h !! l with
  | Some (RowList items) => items
  | _ => []
  end.

(** The outcome [o], read in the store [h], is the result [r]: the
    same rows, or the same exception. *)
Definition denotes (h : heap) (o : outcome loc)
    (r : result (list (list string))) : Prop :=
  match o, r with
  | Returns l, Ok rows => rows_at h l = Some rows
  | Raises e, Raise e' => e = e'
  | _, _ => False
  end.

(** What the outcome [o] is made of is absent from the store [h]: the
    list returned and its rows are new objects. *)
Definition made_after (h h' : heap) (o : outcome loc) : Prop :=
  match o with
  | Returns l => h !! l = None /\ Forall (fun row => h !! row = None) (row_places h' l)
  | _ => True
  end.

(** The list at [place] holds [rows], and neither it nor its rows
    existed in the store [h0] the call received. *)
Definition rows_inv (h0 h : heap) (place : loc) (rows : list (list string))
  : Prop :=
  exists places,
    h !! place = Some (RowList places)
    /\ h0 !! place = None
    /\ Forall2 (fun l row => h !! l = Some (StrList row) /\ h0 !! l = None)
               places rows.

(** No two keys of the dictionary share a list. *)
Definition unshared (items : gmap Z loc) : Prop :=
  forall i j l, items !! i = Some l -> items !! j = Some l -> i = j.

(** The dictionary at [place] holds, under the keys 1..6, six lists of
    their own with the pages of [pages]; these lists did not exist in
    [h0] and are not rows of the list at [rows_place]. *)
Definition pages_inv (h0 h : heap) (rows_place place : loc)
    (pages : gmap Z (list string)) : Prop :=
  has_books pages = true
  /\ exists items,
       h !! place = Some (Dict items)
       /\ unshared items
       /\ forall i, (1 <= i <= 6)%Z ->
            exists l,
              items !! i = Some l
              /\ h !! l = Some (StrList (pages_of pages i))
              /\ h0 !! l = None
              /\ ~ In l (row_places h rows_place).

(** The store [h] and the variables [fr] hold the state [st] of the
    loop, in objects made since the call received [h0], and every
    object of [h0] is as it was. *)
Definition store_inv (h0 h : heap) (fr : InPlace.frame) (st : state) : Prop :=
  h0 ⊆ h
  /\ rows_inv h0 h (InPlace.data fr) (data st)
  /\ InPlace.current_subject fr = current_subject st
  /\ pages_inv h0 h (InPlace.data fr) (InPlace.book_pages fr) (book_pages st).

(** The computation [m], run on the store [h], ends as [r] does: with
    variables that hold the state [r] returns, or with the exception
    [r] raises; either way every object of [h0] is as it was. *)
Definition follows (h0 h : heap) (m : heap -> heap * outcome InPlace.frame)
    (r : result state) : Prop :=
  match r with
  | Ok st => exists (h' : heap) fr, m h = (h', Returns fr) /\ store_inv h0 h' fr st
  | Raise e => exists h' : heap, m h = (h', Raises e) /\ h0 ⊆ h'
  end.

(** Two calls of [parse_index] on the same lines, the second one on the
    store the first one leaves: the two stores and the two outcomes. *)
Definition two_calls (lines : list string) (h : heap)
  : (heap * outcome loc) * (heap * outcome loc) :=
  let first := InPlace.parse_index lines h in
  (first, InPlace.parse_index lines (fst first)).

(* ================================================================= *)
(** ** Vocabulary of the further statements *)

(** The state with its rows preceded by [rows0]. *)
Definition shift (rows0 : list (list string)) (st : state) : state :=
  {| data := rows0 ++ data st;
     current_subject := current_subject st;
     book_pages := book_pages st |}.

(** The state right after a reset, with [rows] emitted so far. *)
Definition reset_state (rows : list (list string)) : state :=
  {| data := rows; current_subject := EmptyString; book_pages := fresh_pages |}.

Definition rmap {A B : Type} (f : A -> B) (m : result A) : result B :=
  x <- m ;; Ok (f x).

(** A book field: empty, or text between two double quotes. *)
Definition empty_or_quoted (field : string) : Prop :=
  field = EmptyString
  \/ exists body, field = String DQUOTE (body +:+ String DQUOTE EmptyString).

(** A row of the table: a non-empty subject and six book fields. *)
Definition row_ok (row : list string) : Prop :=
  exists subject fields,
    row = subject :: fields
    /\ subject <> EmptyString
    /\ length fields = 6%nat
    /\ Forall empty_or_quoted fields.

(** What a reference token contributes: its book and its page, when it
    has the shape and its book lies in 1..6. *)
Definition token_ref (tok : string) : option (Z * string) :=
  match ref_pattern_match (strip tok) with
  | Some (book, page) =>
      match py_int book with
      | Ok b => if ((1 <=? b) && (b <=? 6))%Z then Some (b, page) else None
      | Raise _ => None
      end
  | None => None
  end.

(** The pages the tokens contribute to book [b], in the order of the
    tokens. *)
Definition pages_for (b : Z) (toks : list string) : list string :=
  omap (fun tok => match token_ref tok with
                   | Some (b', page) => if (b' =? b)%Z then Some page else None
                   | None => None
                   end) toks.

(** The four ways a line is processed when no subject is in progress. *)
Inductive step_kind : Type :=
  | Skipped
  | Divided
  | Stored
  | Completed.

(** The reference tokens of a line: those of its second part, when it
    has one. *)
Definition line_tokens (raw : string) : list string :=
  match split_parts (strip raw) with
  | _ :: p1 :: _ => split_commas (rstrip_commas p1)
  | _ => []
  end.

(** The six book fields made of the pages the tokens contribute. *)
Definition fields_for (toks : list string) : list string :=
  (fun b => format_pages (pages_for b toks)) <$> py_range 1 7.

(** The kinds of file [extract_text] reads. *)
Definition supported (ext : string) : Prop :=
  ext = "docx" \/ ext = "pdf" \/ ext = "txt".

(** [pre] is what precedes the leftmost occurrence of [sub] in [s], and
    [post] what follows it. *)
Definition first_occurrence (sub s pre post : string) : Prop :=
  s = pre +:+ sub +:+ post
  /\ forall pre' post',
       s = pre' +:+ sub +:+ post' ->
       (String.length pre <= String.length pre')%nat.

(** No line boundary inside a line. *)
Definition one_line (l : string) : bool :=
  str_all (fun c => negb (is_linebreak c)) l.

(** The token has no book number too long for [int]. *)
Definition int_safe (tok : string) : bool :=
  match ref_pattern_match (strip tok) with
  | Some (book, _) => (Z.of_nat (String.length book) <=? max_str_digits)%Z
  | None => true
  end.

(** No reference token of the line has a book number too long for
    [int]. *)
Definition line_safe (raw : string) : bool := forallb int_safe (line_tokens raw).

(** [n] times the digit 1. *)
Fixpoint digits_run (n : nat) : string :=
  match n with
  | O => EmptyString
  | S n' => String "1" (digits_run n')
  end.

(** A line that is empty once trimmed. *)
Definition blank (raw : string) : bool := negb (truthy (strip raw)).

(** A line that ends with a comma once trimmed. *)
Definition ends_with_comma (raw : string) : bool := endswith (strip raw) ",".

(* ================================================================= *)
(** * Properties *)

(** ** The error monad *)

Lemma bind_Ok {A B : Type} (m : result A) (k : A -> result B) (b : B) :
  bind m k = Ok b <-> exists a, m = Ok a /\ k a = Ok b.
Proof.
  destruct m as [a|e]; simpl; split.
  - intros H. exists a. auto.
  - intros (a' & Ha & Hk). congruence.
  - discriminate.
  - intros (a' & Ha & _). discriminate.
Qed.

Lemma foldM_app {A B : Type} (f : A -> B -> result A) (acc : A) (l1 l2 : list B) :
  foldM f acc (l1 ++ l2) = (acc' <- foldM f acc l1 ;; foldM f acc' l2).
Proof.
  revert acc. induction l1 as [|x l1 IH]; intros acc; simpl; [reflexivity|].
  destruct (f acc x) as [a|e]; simpl; [apply IH | reflexivity].
Qed.

(** A fold whose steps all succeed and keep an invariant succeeds and
    keeps it. *)
Lemma foldM_invariant {A B : Type} (f : A -> B -> result A) (I : A -> Prop) :
  (forall a x, I a -> exists a', f a x = Ok a' /\ I a') ->
  forall l a, I a -> exists a', foldM f a l = Ok a' /\ I a'.
Proof.
  intros Hstep l. induction l as [|x l IH]; intros a Ha; simpl.
  - exists a. auto.
  - destruct (Hstep a x Ha) as (a1 & -> & Ha1). simpl. apply IH, Ha1.
Qed.

(** ** Character classes *)

Lemma isspace_TAB : isspace TAB = true.
Proof. reflexivity. Qed.

Lemma digit_not_space c : isdigit c = true -> isspace c = false.
Proof.
  unfold isdigit, isspace, between. destruct (code c) as [|p]; [discriminate|].
  intros H. apply andb_true_iff in H as [H1 H2].
  apply N.leb_le in H1, H2.
  repeat (apply orb_false_iff; split); apply andb_false_iff;
    rewrite !N.leb_gt; lia.
Qed.

Lemma space_not_colon c : isspace c = true -> Ascii.eqb c COLON = false.
Proof.
  intros H. apply Ascii.eqb_neq. intros ->. discriminate.
Qed.

Lemma digit_not_colon c : isdigit c = true -> Ascii.eqb c COLON = false.
Proof.
  intros H. apply Ascii.eqb_neq. intros ->. discriminate.
Qed.

Lemma nonspace_not_TAB c : isspace c = false -> Ascii.eqb TAB c = false.
Proof.
  intros H. apply Ascii.eqb_neq. intros <-. discriminate.
Qed.

(** ** Strings *)

Lemma append_empty_r (s : string) : s +:+ EmptyString = s.
Proof. induction s as [|c s IH]; simpl; [reflexivity | now rewrite IH]. Qed.

Lemma append_assoc (a b c : string) : (a +:+ b) +:+ c = a +:+ (b +:+ c).
Proof. induction a as [|x a IH]; simpl; [reflexivity | now rewrite IH]. Qed.

Lemma length_append (a b : string) :
  String.length (a +:+ b) = (String.length a + String.length b)%nat.
Proof. induction a as [|x a IH]; simpl; [reflexivity | now rewrite IH]. Qed.

Lemma truthy_true (s : string) : truthy s = true <-> s <> EmptyString.
Proof. destruct s; simpl; split; congruence. Qed.

Lemma truthy_false (s : string) : truthy s = false <-> s = EmptyString.
Proof. destruct s; simpl; split; congruence. Qed.

Lemma lstrip_with_head p s c r :
  lstrip_with p s = String c r -> p c = false.
Proof.
  induction s as [|a s IH]; simpl; [discriminate|].
  destruct (p a) eqn:Ha; [exact IH|].
  intros [= <- _]. exact Ha.
Qed.

Lemma lstrip_with_id p c r : p c = false -> lstrip_with p (String c r) = String c r.
Proof. intros H. simpl. now rewrite H. Qed.

Lemma rstrip_with_head p c s :
  p c = false -> exists r, rstrip_with p (String c s) = String c r.
Proof.
  intros H. simpl. destruct (rstrip_with p s); rewrite ?H; eauto.
Qed.

Lemma rstrip_with_cons p s c r :
  rstrip_with p s = String c r -> exists s', s = String c s'.
Proof.
  destruct s as [|a s]; simpl; [discriminate|].
  destruct (rstrip_with p s); [destruct (p a)|]; intros [= <- _]; eauto.
Qed.

(** A trimmed line starts with a character that is not whitespace. *)
Lemma strip_head s c r : strip s = String c r -> isspace c = false.
Proof.
  unfold strip. intros H.
  destruct (rstrip_with_cons _ _ _ _ H) as [s' Hs'].
  eapply lstrip_with_head, Hs'.
Qed.

(** Trimming keeps a first character that is not whitespace. *)
Lemma strip_keeps_head c s :
  isspace c = false -> exists r, strip (String c s) = String c r.
Proof.
  intros H. unfold strip. rewrite lstrip_with_id by exact H.
  apply rstrip_with_head, H.
Qed.

Lemma span_all p s : str_all p s = true -> span p s = (s, EmptyString).
Proof.
  induction s as [|c s IH]; simpl; [reflexivity|].
  intros H. apply andb_true_iff in H as [Hc Hs].
  now rewrite Hc, (IH Hs).
Qed.

Lemma span_head p c s :
  p c = true -> exists m r, span p (String c s) = (String c m, r).
Proof.
  intros H. simpl. rewrite H. destruct (span p s) as [m r]. eauto.
Qed.

(** [span] cuts [m +:+ rest] after [m] when [m] lies in the class and
    [rest] does not start in it. *)
Lemma span_append p m rest :
  str_all p m = true ->
  match rest with EmptyString => True | String c _ => p c = false end ->
  span p (m +:+ rest) = (m, rest).
Proof.
  intros Hm Hrest. induction m as [|a m IH]; simpl in *.
  - destruct rest as [|c r]; simpl; [reflexivity | now rewrite Hrest].
  - apply andb_true_iff in Hm as [Ha Hm]. now rewrite Ha, (IH Hm).
Qed.

Lemma span_spec p s m r :
  span p s = (m, r) ->
  s = m +:+ r /\ str_all p m = true
  /\ match r with EmptyString => True | String c _ => p c = false end.
Proof.
  revert m r. induction s as [|a s IH]; simpl; intros m r.
  - intros [= <- <-]. auto.
  - destruct (p a) eqn:Ha.
    + destruct (span p s) as [m' r'] eqn:E. intros [= <- <-].
      destruct (IH _ _ eq_refl) as (-> & Hm & Hr). simpl. rewrite Ha. auto.
    + intros [= <- <-]. simpl. auto.
Qed.

(** ** Searching a substring *)

Lemma drop_prefix_Some p s r : drop_prefix p s = Some r <-> s = p +:+ r.
Proof.
  revert s. induction p as [|a p IH]; intros s; simpl.
  - split; [intros [= ->] | intros ->]; reflexivity.
  - destruct s as [|b s].
    + split; discriminate.
    + destruct (Ascii.eqb_spec a b) as [->|Hab].
      * rewrite IH. split; [intros -> | intros [= ->]]; reflexivity.
      * split; [discriminate | intros [= Hb _]; congruence].
Qed.

Lemma partition_first_Some sep s a b :
  partition_first sep s = Some (a, b) ->
  s = a +:+ sep +:+ b
  /\ forall a' b', s = a' +:+ sep +:+ b' -> (String.length a <= String.length a')%nat.
Proof.
  revert a b. induction s as [|c s IH]; intros a b; simpl.
  - destruct (drop_prefix sep EmptyString) as [rest|] eqn:E; [|discriminate].
    intros [= <- <-]. apply drop_prefix_Some in E. split; [exact E|].
    intros; simpl; lia.
  - destruct (drop_prefix sep (String c s)) as [rest|] eqn:E.
    + intros [= <- <-]. apply drop_prefix_Some in E. split; [exact E|].
      intros; simpl; lia.
    + destruct (partition_first sep s) as [[a0 b0]|] eqn:P; [|discriminate].
      intros [= <- <-]. destruct (IH _ _ eq_refl) as [Hs Hleft].
      split; [simpl; now rewrite <- Hs|].
      intros a' b' H'. destruct a' as [|x a'].
      * simpl in H'. apply drop_prefix_Some in H'. congruence.
      * simpl in H'. injection H' as _ H'. simpl.
        specialize (Hleft _ _ H'). lia.
Qed.

Lemma partition_first_None sep s :
  partition_first sep s = None -> ~ occurs sep s.
Proof.
  induction s as [|c s IH]; simpl.
  - destruct (drop_prefix sep EmptyString) as [rest|] eqn:E; [discriminate|].
    intros _ (pre & post & H). destruct pre as [|x pre]; [|discriminate].
    simpl in H. apply drop_prefix_Some in H. congruence.
  - destruct (drop_prefix sep (String c s)) as [rest|] eqn:E; [discriminate|].
    destruct (partition_first sep s) as [[a0 b0]|] eqn:P; [discriminate|].
    intros _ (pre & post & H). destruct pre as [|x pre].
    + simpl in H. apply drop_prefix_Some in H. congruence.
    + simpl in H. injection H as _ H. apply IH; [reflexivity|].
      exists pre, post. exact H.
Qed.

(** [sub in s] decides whether [sub] occurs in [s]. *)
Lemma str_in_occurs sub s : str_in sub s = true <-> occurs sub s.
Proof.
  unfold str_in. destruct (partition_first sub s) as [[a b]|] eqn:P.
  - split; [intros _ | reflexivity].
    exists a, b. apply (partition_first_Some _ _ _ _ P).
  - split; [discriminate|]. intros H.
    destruct (partition_first_None _ _ P H).
Qed.

Lemma str_in_not_occurs sub s : str_in sub s = false <-> ~ occurs sub s.
Proof.
  rewrite <- str_in_occurs. destruct (str_in sub s); split; congruence.
Qed.

(** ** Splitting a line in two *)

Lemma partition_TAB_nonspace s :
  str_all nonspace s = true -> partition_first (String TAB EmptyString) s = None.
Proof.
  induction s as [|c s IH]; [reflexivity|].
  cbn [str_all partition_first drop_prefix].
  intros H. apply andb_true_iff in H as [Hc Hs].
  unfold nonspace in Hc. apply negb_true_iff in Hc.
  rewrite (nonspace_not_TAB c Hc), (IH Hs). reflexivity.
Qed.

(** A single token: no separator, one part. *)
Lemma split_parts_token s :
  truthy s = true -> str_all nonspace s = true -> split_parts s = [s].
Proof.
  intros Ht Hall. unfold split_parts, str_in.
  rewrite (partition_TAB_nonspace s Hall).
  unfold split_ws1. destruct s as [|c s]; [discriminate|].
  pose proof Hall as Hall'. simpl in Hall'.
  apply andb_true_iff in Hall' as [Hc _].
  unfold nonspace in Hc. apply negb_true_iff in Hc.
  rewrite (lstrip_with_id isspace c s Hc).
  rewrite (span_all nonspace _ Hall). reflexivity.
Qed.

(** The first part of a trimmed line starts with the line's first
    character, so its trimmed form is not empty. *)
Lemma split_parts_head c s :
  isspace c = false ->
  exists p0 rest, split_parts (String c s) = String c p0 :: rest.
Proof.
  intros Hc. unfold split_parts, str_in, split1.
  destruct (partition_first (String TAB EmptyString) (String c s))
    as [[a b]|] eqn:P.
  - cbn [partition_first drop_prefix] in P.
    rewrite (nonspace_not_TAB c Hc) in P.
    destruct (partition_first (String TAB EmptyString) s) as [[a0 b0]|];
      [|discriminate].
    injection P as <- <-. eauto.
  - unfold split_ws1. rewrite (lstrip_with_id isspace c s Hc).
    assert (Hn : nonspace c = true) by (unfold nonspace; now rewrite Hc).
    destruct (span_head nonspace c s Hn) as (m & r & ->).
    destruct (lstrip_with isspace r); eauto.
Qed.

(** ** The pattern *)

(** A greedy repetition need not give anything back when the rest of
    the pattern cannot start with a character of the class. *)
Lemma re_star_greedy {R : Type} p s (k : string -> string -> option R) :
  (forall m c rest, p c = true -> k m (String c rest) = None) ->
  re_star p s k = k (fst (span p s)) (snd (span p s)).
Proof.
  revert k. induction s as [|c s IH]; intros k Hk; simpl; [reflexivity|].
  destruct (p c) eqn:Hc; [|reflexivity].
  rewrite IH by (intros m d rest Hd; apply Hk, Hd).
  destruct (span p s) as [m r]; simpl.
  destruct (k (String c m) r); [reflexivity|].
  apply Hk, Hc.
Qed.

(** Nor when the rest of the pattern accepts whatever is left. *)
Lemma re_star_last {R : Type} p s (k : string -> string -> option R) :
  (forall m r, k m r <> None) ->
  re_star p s k = k (fst (span p s)) (snd (span p s)).
Proof.
  revert k. induction s as [|c s IH]; intros k Hk; simpl; [reflexivity|].
  destruct (p c) eqn:Hc; [|reflexivity].
  rewrite IH by (intros m r; apply Hk).
  destruct (span p s) as [m r]; simpl.
  destruct (k (String c m) r) eqn:E; [reflexivity|].
  destruct (Hk _ _ E).
Qed.

Lemma re_plus_span {R : Type} p s (k : string -> string -> option R) :
  (forall m c rest, p c = true -> k m (String c rest) = None)
  \/ (forall m r, k m r <> None) ->
  re_plus p s k =
    match fst (span p s) with
    | EmptyString => None
    | m => k m (snd (span p s))
    end.
Proof.
  intros Hk. destruct s as [|c s]; simpl; [reflexivity|].
  destruct (p c) eqn:Hc; [|reflexivity].
  destruct Hk as [Hk|Hk].
  - rewrite re_star_greedy by (intros m d rest Hd; apply Hk, Hd).
    destruct (span p s) as [m r]; reflexivity.
  - rewrite re_star_last by (intros m r; apply Hk).
    destruct (span p s) as [m r]; reflexivity.
Qed.

(** Backtracking never changes the answer of this pattern. *)
Lemma ref_pattern_match_munch s : ref_pattern_match s = ref_munch s.
Proof.
  unfold ref_pattern_match, ref_munch.
  rewrite re_plus_span.
  2:{ left. intros m c rest Hc. simpl.
      rewrite (digit_not_space c Hc). simpl.
      now rewrite (digit_not_colon c Hc). }
  destruct (span isdigit s) as [book s1]; simpl.
  destruct book as [|b book]; [reflexivity|].
  rewrite re_star_greedy.
  2:{ intros m c rest Hc. simpl. now rewrite (space_not_colon c Hc). }
  destruct (snd (span isspace s1)) as [|c s3]; simpl; [reflexivity|].
  destruct (Ascii.eqb c COLON); [|reflexivity].
  rewrite re_star_greedy.
  2:{ intros m d rest Hd. simpl. unfold nonspace. now rewrite Hd. }
  rewrite re_plus_span by (right; discriminate).
  reflexivity.
Qed.

Lemma str_all_head_false (p q : ascii -> bool) (w tl : string) c :
  (forall a, p a = true -> q a = false) -> q c = false ->
  str_all p w = true ->
  match w +:+ String c tl with
  | EmptyString => True
  | String a _ => q a = false
  end.
Proof.
  intros Hpq Hc Hw. destruct w as [|a w]; simpl in *; [exact Hc|].
  apply andb_true_iff in Hw as [Ha _]. apply Hpq, Ha.
Qed.

Lemma space_not_digit c : isspace c = true -> isdigit c = false.
Proof.
  intros H. destruct (isdigit c) eqn:E; [|reflexivity].
  apply digit_not_space in E. congruence.
Qed.

(** The pattern matches exactly the strings of the shape, and its two
    groups are the integer and the page token. *)
Lemma ref_pattern_match_shape s book page :
  ref_pattern_match s = Some (book, page) <-> ref_shape s book page.
Proof.
  rewrite ref_pattern_match_munch. unfold ref_munch, ref_shape. split.
  - destruct (span isdigit s) as [bk s1] eqn:E1.
    destruct bk as [|b bk]; [discriminate|].
    destruct (span isspace s1) as [w1 s2] eqn:E2; simpl.
    destruct s2 as [|c s3]; [discriminate|].
    destruct (Ascii.eqb_spec c COLON) as [->|]; [|discriminate].
    destruct (span isspace s3) as [w2 s4] eqn:E3; simpl.
    destruct (span nonspace s4) as [pg rest] eqn:E4; simpl.
    destruct pg as [|g pg]; [discriminate|].
    intros [= <- <-].
    apply span_spec in E1 as (-> & Hb & _).
    apply span_spec in E2 as (-> & Hw1 & _).
    apply span_spec in E3 as (-> & Hw2 & _).
    apply span_spec in E4 as (-> & Hpg & Hrest).
    exists w1, w2, rest. repeat split; try assumption.
    destruct rest as [|r rest]; [exact I|].
    unfold nonspace in Hrest. now apply negb_false_iff in Hrest.
  - intros (w1 & w2 & rest & -> & Tb & Hb & Hw1 & Hw2 & Tp & Hp & Hrest).
    rewrite (span_append isdigit book); [|exact Hb|].
    2:{ apply (str_all_head_false isspace isdigit); auto using space_not_digit. }
    destruct book as [|b book]; [discriminate|].
    rewrite (span_append isspace w1); [|exact Hw1|reflexivity].
    cbn [snd fst]. rewrite Ascii.eqb_refl.
    rewrite (span_append isspace w2); [|exact Hw2|].
    2:{ destruct page as [|g page]; [discriminate|]. simpl in *.
        apply andb_true_iff in Hp as [Hg _].
        unfold nonspace in Hg. now apply negb_true_iff in Hg. }
    simpl. rewrite (span_append nonspace page); [|exact Hp|].
    2:{ destruct rest as [|r rest]; [exact I|].
        unfold nonspace. now rewrite Hrest. }
    simpl. destruct page; [discriminate | reflexivity].
Qed.

(** ** [int] on the first group *)

Lemma int_digits_Ok s acc :
  str_all isdigit s = true -> (0 <= acc)%Z ->
  exists b, int_digits acc s = Ok b /\ (0 <= b)%Z.
Proof.
  revert acc. induction s as [|c s IH]; intros acc Hs Hacc; simpl.
  - eauto.
  - simpl in Hs. apply andb_true_iff in Hs as [Hc Hs].
    unfold digit_value. rewrite Hc. apply IH; [exact Hs|].
    unfold isdigit, between in Hc. apply andb_true_iff in Hc as [H1 _].
    apply N.leb_le in H1. lia.
Qed.

Lemma py_int_Ok s :
  truthy s = true -> str_all isdigit s = true ->
  (Z.of_nat (String.length s) <= max_str_digits)%Z ->
  exists b, py_int s = Ok b /\ (0 <= b)%Z.
Proof.
  intros Ht Hs Hlen. destruct s as [|c s]; [discriminate|].
  unfold py_int. destruct (Z.ltb_spec max_str_digits (Z.of_nat (String.length (String c s))));
    [lia|].
  apply int_digits_Ok; [exact Hs | lia].
Qed.

Lemma py_int_long s :
  (max_str_digits < Z.of_nat (String.length s))%Z -> py_int s = Raise ValueError.
Proof.
  intros Hlen. destruct s as [|c s]; [reflexivity|].
  unfold py_int. destruct (Z.ltb_spec max_str_digits (Z.of_nat (String.length (String c s))));
    [reflexivity | lia].
Qed.

(** ** The dictionary of page lists *)

Lemma py_range_1_7 : py_range 1 7 = [1; 2; 3; 4; 5; 6]%Z.
Proof. reflexivity. Qed.

Lemma has_books_spec (pages : gmap Z (list string)) :
  has_books pages = true <-> forall i, (1 <= i <= 6)%Z -> is_Some (pages !! i).
Proof.
  unfold has_books. rewrite py_range_1_7, forallb_forall. split.
  - intros H i Hi. specialize (H i).
    destruct (pages !! i); [eauto|].
    assert (false = true); [|discriminate].
    apply H. assert (i = 1 \/ i = 2 \/ i = 3 \/ i = 4 \/ i = 5 \/ i = 6)%Z as Hc by lia.
    simpl. intuition auto.
  - intros H i Hi. destruct (H i) as [l ->]; [|reflexivity].
    simpl in Hi. lia.
Qed.

Lemma has_books_fresh : has_books fresh_pages = true.
Proof. reflexivity. Qed.

Lemma pages_of_fresh i : pages_of fresh_pages i = [].
Proof.
  unfold pages_of, fresh_pages. rewrite py_range_1_7.
  destruct (list_to_map _ !! i) as [l|] eqn:E; [|reflexivity].
  apply elem_of_list_to_map_2 in E. simpl.
  repeat (apply elem_of_cons in E as [E|E]; [now inversion E|]).
  inversion E.
Qed.

Lemma has_books_insert (pages : gmap Z (list string)) b l :
  has_books pages = true -> has_books (<[b := l]> pages) = true.
Proof.
  rewrite !has_books_spec. intros H i Hi.
  rewrite lookup_insert. case_decide; [eauto | apply H, Hi].
Qed.

Lemma dict_get_pages_of (pages : gmap Z (list string)) i :
  has_books pages = true -> (1 <= i <= 6)%Z ->
  dict_get pages i = Ok (pages_of pages i).
Proof.
  intros H Hi.
  destruct (proj1 (has_books_spec pages) H i Hi) as [l Hl].
  unfold dict_get, pages_of. now rewrite Hl.
Qed.

Lemma comprehension_map {A B : Type} (f : A -> result B) (g : A -> B) l :
  Forall (fun x => f x = Ok (g x)) l -> comprehension f l = Ok (g <$> l).
Proof.
  induction 1 as [|x l Hx _ IH]; simpl; [reflexivity|].
  now rewrite Hx, IH.
Qed.

(** With its six keys present the row of the subject in progress is
    built without [KeyError]. *)
Lemma subject_row_Ok st :
  has_books (book_pages st) = true ->
  subject_row st = Ok (current_subject st :: book_fields (book_pages st)).
Proof.
  intros H. unfold subject_row, book_fields.
  rewrite (comprehension_map _ (fun i => format_pages (pages_of (book_pages st) i))).
  - reflexivity.
  - rewrite py_range_1_7.
    repeat constructor; rewrite (dict_get_pages_of _ _ H); (reflexivity || lia).
Qed.

Lemma flush_Ok st :
  has_books (book_pages st) = true ->
  flush st = Ok {| data := data st ++ [current_subject st :: book_fields (book_pages st)];
                   current_subject := EmptyString;
                   book_pages := fresh_pages |}.
Proof. intros H. unfold flush. now rewrite (subject_row_Ok st H). Qed.

(** ** The steps of the parser that cannot raise *)

Lemma add_ref_Ok pages ref :
  has_books pages = true -> int_safe ref = true ->
  exists pages', add_ref pages ref = Ok pages' /\ has_books pages' = true.
Proof.
  intros H Hsafe. unfold add_ref. unfold int_safe in Hsafe.
  destruct (ref_pattern_match (strip ref)) as [[book page]|] eqn:E; [|eauto].
  apply ref_pattern_match_shape in E
    as (w1 & w2 & rest & _ & Tb & Hb & _).
  apply Z.leb_le in Hsafe.
  destruct (py_int_Ok book Tb Hb Hsafe) as (b & -> & _). cbn [bind].
  destruct ((1 <=? b)%Z && (b <=? 6)%Z) eqn:Hr; [|eauto].
  apply andb_true_iff in Hr as [H1 H6]. apply Z.leb_le in H1, H6.
  rewrite (dict_get_pages_of pages b H) by lia. cbn [bind].
  eexists. split; [reflexivity|]. apply has_books_insert, H.
Qed.

(** A book number too long for [int] makes the pass raise, whatever
    the dictionary holds. *)
Lemma add_ref_unsafe pages ref :
  int_safe ref = false -> add_ref pages ref = Raise ValueError.
Proof.
  unfold int_safe, add_ref.
  destruct (ref_pattern_match (strip ref)) as [[book page]|]; [|discriminate].
  intros H. apply Z.leb_gt in H. now rewrite (py_int_long book H).
Qed.

Lemma list_get_0 {A : Type} (x : A) l : list_get (x :: l) 0 = Ok x.
Proof. reflexivity. Qed.

Lemma list_get_1 {A : Type} (x y : A) l : list_get (x :: y :: l) 1 = Ok y.
Proof. reflexivity. Qed.

Lemma capture_subject_books st line parts st1 :
  capture_subject st line parts = Ok st1 -> book_pages st1 = book_pages st.
Proof.
  unfold capture_subject.
  destruct (negb (truthy (current_subject st)) && negb (endswith line ","));
    [|now intros [= <-]].
  destruct (list_get parts 0); simpl; [|discriminate]. now intros [= <-].
Qed.

Lemma divider_line_Ok st line :
  has_books (book_pages st) = true ->
  divider_line st line =
    Ok {| data := data st
                  ++ (if truthy (current_subject st)
                      then [current_subject st :: book_fields (book_pages st)]
                      else [])
                  ++ [divider_row line];
          current_subject := EmptyString;
          book_pages := fresh_pages |}.
Proof.
  intros H. unfold divider_line.
  destruct (truthy (current_subject st)).
  - rewrite (subject_row_Ok st H). simpl. now rewrite <- app_assoc.
  - reflexivity.
Qed.

Lemma finish_Ok st :
  has_books (book_pages st) = true ->
  finish st = Ok (data st ++ (if truthy (current_subject st)
                              then [current_subject st :: book_fields (book_pages st)]
                              else [])).
Proof.
  intros H. unfold finish. destruct (truthy (current_subject st)).
  - now rewrite (subject_row_Ok st H).
  - now rewrite app_nil_r.
Qed.

(** ** The subject between two lines *)

Lemma collect_refs_subject st parts st' :
  collect_refs st parts = Ok st' -> current_subject st' = current_subject st.
Proof.
  unfold collect_refs. destruct (list_get parts 1); simpl; [|discriminate].
  destruct (foldM add_ref _ _); simpl; [|discriminate]. now intros [= <-].
Qed.

Lemma flush_subject st st' : flush st = Ok st' -> current_subject st' = EmptyString.
Proof.
  unfold flush. destruct (subject_row st); simpl; [|discriminate].
  now intros [= <-].
Qed.

(** A line that finds no subject in progress leaves none in progress:
    a subject captured on line 112 is flushed on line 122 of the same
    pass, because both are guarded by the same test on the comma. *)
Lemma process_line_subject st raw st' :
  process_line st raw = Ok st' ->
  current_subject st = EmptyString -> current_subject st' = EmptyString.
Proof.
  unfold process_line. intros H Hs.
  destruct (truthy (strip raw)); simpl in H; [|congruence].
  destruct (is_divider (strip raw)).
  - unfold divider_line in H. rewrite Hs in H. simpl in H.
    now injection H as <-.
  - unfold content_line in H. apply bind_Ok in H as (st2 & H2 & H).
    assert (endswith (strip raw) "," = true -> current_subject st2 = EmptyString)
      as Hcomma.
    { intros Hc. destruct (1 <? length (split_parts (strip raw)))%nat;
        [|congruence].
      apply bind_Ok in H2 as (st1 & H1 & H2).
      apply collect_refs_subject in H2. rewrite H2.
      unfold capture_subject in H1. rewrite Hc, andb_false_r in H1. congruence. }
    unfold flush_check in H.
    destruct (endswith (strip raw) ",") eqn:Hc; simpl in H.
    + injection H as <-. now apply Hcomma.
    + destruct (truthy (current_subject st2)) eqn:Ht.
      * eapply flush_subject, H.
      * injection H as <-. now apply truthy_false.
Qed.

(** Between two lines no subject is ever in progress. *)
Lemma run_subject st lines st' :
  run st lines = Ok st' ->
  current_subject st = EmptyString -> current_subject st' = EmptyString.
Proof.
  unfold run. revert st. induction lines as [|l lines IH]; intros st; simpl.
  - now intros [= <-].
  - intros H Hs. apply bind_Ok in H as (st1 & H1 & H).
    eapply IH; [exact H|]. eapply process_line_subject; eauto.
Qed.

(** Since no subject survives a line, the flush at the end of the input
    has nothing to emit: the rows are those the loop appended. *)
Lemma parse_index_rows_of_loop lines st :
  run initial_state lines = Ok st -> parse_index lines = Ok (data st).
Proof.
  intros H. unfold parse_index. rewrite H. simpl.
  unfold finish. now rewrite (run_subject _ _ _ H eq_refl).
Qed.

(* ================================================================= *)
(** * The claims *)

(** C1 (the code departs from it).  On the two lines
    ["Apples\t1:10, 2:20,"] and ["\t3:30"] the claim expects one row for
    "Apples" with pages 10, 20 and 30 under books 1, 2 and 3.  The code
    returns no row at all: the comma that ends the first line keeps
    line 112 from capturing "Apples", so the pages 10 and 20 are stored
    without a subject and dropped at the end; and the second line,
    trimmed to ["3:30"], has no separator left, so that even with
    "Apples" in progress its reference would be skipped and the row
    flushed without page 30. *)
Theorem continuation_example_loses_the_entry :
  parse_index [tabbed "Apples" "1:10, 2:20,"; tabbed "" "3:30"] = Ok []
  /\ process_line
       {| data := []; current_subject := "Apples";
          book_pages := <[2%Z := ["20"]]> (<[1%Z := ["10"]]> fresh_pages) |}
       (tabbed "" "3:30")
     = Ok {| data := [["Apples"; format_pages ["10"]; format_pages ["20"];
                       ""; ""; ""; ""]];
             current_subject := "";
             book_pages := fresh_pages |}.
Proof. split; vm_compute; reflexivity. Qed.

(** C2 (the code departs from it).  The claim is that whenever
    [current_subject] is empty the six page lists are empty.  After the
    single line ["Apples\t1:10, 2:20,"] the subject is empty while the
    lists of books 1 and 2 hold "10" and "20". *)
Theorem pages_without_subject_after_comma_line :
  exists st,
    run initial_state [tabbed "Apples" "1:10, 2:20,"] = Ok st
    /\ current_subject st = ""
    /\ pages_of (book_pages st) 1 = ["10"]
    /\ pages_of (book_pages st) 2 = ["20"].
Proof. eexists. split; [vm_compute; reflexivity|]. repeat split. Qed.

(** C3.  A line that trims to one alphabetic character first appends
    the row of the subject in progress, if there is one, then the
    divider row made of that character and six empty fields, and leaves
    an empty subject and six empty page lists.  A trimmed line of more
    than one character, or of one character that is not alphabetic, is
    not a divider: it is processed as a content line. *)
Theorem divider_line_flushes_then_divides :
  (forall st raw c,
      strip raw = String c EmptyString -> isalpha c = true ->
      has_books (book_pages st) = true ->
      process_line st raw =
        Ok {| data := data st
                      ++ (if truthy (current_subject st)
                          then [current_subject st :: book_fields (book_pages st)]
                          else [])
                      ++ [[String c EmptyString; ""; ""; ""; ""; ""; ""]];
              current_subject := "";
              book_pages := fresh_pages |})
  /\ (forall i, pages_of fresh_pages i = [])
  /\ (forall st raw,
        (1 < String.length (strip raw))%nat
        \/ (exists c, strip raw = String c EmptyString /\ isalpha c = false) ->
        is_divider (strip raw) = false
        /\ process_line st raw = content_line st (strip raw)).
Proof.
  split; [|split].
  - intros st raw c Hraw Hc H. unfold process_line. rewrite Hraw.
    unfold is_divider, str_isalpha. simpl. rewrite Hc. simpl.
    apply divider_line_Ok, H.
  - apply pages_of_fresh.
  - intros st raw Hraw.
    assert (truthy (strip raw) = true /\ is_divider (strip raw) = false)
      as [Ht Hd].
    { unfold is_divider, str_isalpha. destruct Hraw as [Hlen|(c & -> & Hc)].
      - destruct (strip raw) as [|a [|b s]]; simpl in Hlen; try lia.
        split; reflexivity.
      - simpl. now rewrite Hc. }
    split; [exact Hd|]. unfold process_line. now rewrite Ht, Hd.
Qed.

Lemma divider_line_flushes_then_divides_witness :
  process_line
    {| data := []; current_subject := "Apples";
       book_pages := <[1%Z := ["5"; "6"]]> fresh_pages |}
    " B "
  = Ok {| data := [["Apples"; format_pages ["5"; "6"]; ""; ""; ""; ""; ""];
                   ["B"; ""; ""; ""; ""; ""; ""]];
          current_subject := "";
          book_pages := fresh_pages |}
  /\ process_line initial_state "7" = content_line initial_state "7".
Proof.
  destruct divider_line_flushes_then_divides as (Hdiv & _ & Hother). split.
  - etransitivity.
    + apply (Hdiv {| data := []; current_subject := "Apples";
                     book_pages := <[1%Z := ["5"; "6"]]> fresh_pages |}
                  " B " "B"%char); reflexivity.
    + vm_compute. reflexivity.
  - apply (Hother initial_state "7"). right. exists "7"%char. split; reflexivity.
Defined.

(** C9.  A non-empty line that is not a divider and trims to a single
    token (no tab, no whitespace inside) sets no subject and stores no
    page: it flushes the subject in progress when there is one and the
    line does not end with a comma, and otherwise leaves the state as
    it was; with no subject in progress the state is unchanged and no
    row is emitted. *)
Theorem single_token_line_only_flushes st raw :
  truthy (strip raw) = true ->
  is_divider (strip raw) = false ->
  str_all nonspace (strip raw) = true ->
  process_line st raw =
    (if negb (endswith (strip raw) ",") && truthy (current_subject st)
     then flush st
     else Ok st)
  /\ (current_subject st = "" -> process_line st raw = Ok st).
Proof.
  intros Ht Hd Htok.
  assert (process_line st raw = flush_check st (strip raw)) as ->.
  { unfold process_line. rewrite Ht, Hd. simpl.
    unfold content_line. now rewrite (split_parts_token _ Ht Htok). }
  unfold flush_check. split; [reflexivity|].
  intros ->. simpl. now rewrite andb_false_r.
Qed.

Lemma single_token_line_only_flushes_witness :
  process_line initial_state "3:30" = Ok initial_state.
Proof.
  apply (single_token_line_only_flushes initial_state "3:30");
    reflexivity.
Defined.

(** C10.  After the last line a row is appended exactly when
    [current_subject] is not empty; when it is empty the rows are
    returned as they are, so pages stored in the six lists without a
    subject never reach the output. *)
Theorem final_flush_iff_subject st :
  has_books (book_pages st) = true ->
  (current_subject st <> "" ->
   finish st = Ok (data st ++ [current_subject st :: book_fields (book_pages st)]))
  /\ (current_subject st = "" -> finish st = Ok (data st)).
Proof.
  intros H. rewrite (finish_Ok st H). split.
  - intros Hs. apply truthy_true in Hs. now rewrite Hs.
  - intros ->. simpl. now rewrite app_nil_r.
Qed.

Lemma final_flush_iff_subject_witness :
  finish {| data := [["A"; ""; ""; ""; ""; ""; ""]]; current_subject := "";
            book_pages := <[1%Z := ["5"]]> fresh_pages |}
  = Ok [["A"; ""; ""; ""; ""; ""; ""]].
Proof.
  apply (final_flush_iff_subject
           {| data := [["A"; ""; ""; ""; ""; ""; ""]]; current_subject := "";
              book_pages := <[1%Z := ["5"]]> fresh_pages |});
    vm_compute; reflexivity.
Defined.

(** C4 (the code departs from it).  The claim is that a token is
    either stored or silently dropped and that none makes the parser
    raise.  The code does so as long as the integer of the token has at
    most 4300 digits: its page token is appended, as it is, at the end
    of the list of its book when the integer lies in 1..6, and the
    dictionary is left unchanged when the integer lies outside 1..6 or
    when the token has not the shape ("7:12" is dropped).  But
    [int(book)] on line 118 stands in no [try]: a token whose integer
    has more than 4300 digits makes it raise [ValueError], which leaves
    [parse_index]; so does the token made of 4301 digits, a colon and a
    page. *)
Theorem add_ref_raises_on_long_book_number :
  add_ref fresh_pages (digits_run 4301 +:+ ":12") = Raise ValueError
  /\ parse_index [tabbed "Apples" (digits_run 4301 +:+ ":12")] = Raise ValueError
  /\ forall pages ref,
       has_books pages = true ->
       (forall book page,
           ref_shape (strip ref) book page ->
           ((Z.of_nat (String.length book) <= max_str_digits)%Z ->
            exists b,
              py_int book = Ok b
              /\ add_ref pages ref =
                   Ok (if ((1 <=? b) && (b <=? 6))%Z
                       then <[b := pages_of pages b ++ [page]]> pages
                       else pages))
           /\ ((max_str_digits < Z.of_nat (String.length book))%Z ->
               add_ref pages ref = Raise ValueError))
       /\ ((forall book page, ~ ref_shape (strip ref) book page) ->
           add_ref pages ref = Ok pages)
       /\ add_ref pages "7:12" = Ok pages.
Proof.
  split; [vm_compute; reflexivity|]. split; [vm_compute; reflexivity|].
  intros pages ref H. split; [|split].
  - intros book page Hshape.
    assert (ref_pattern_match (strip ref) = Some (book, page)) as Hm
      by now apply ref_pattern_match_shape.
    destruct Hshape as (w1 & w2 & rest & Hs & Tb & Hb & Hrest).
    split.
    + intros Hlen. destruct (py_int_Ok book Tb Hb Hlen) as (b & Hint & _).
      exists b. split; [exact Hint|].
      unfold add_ref. rewrite Hm, Hint. cbn [bind].
      destruct ((1 <=? b)%Z && (b <=? 6)%Z) eqn:Hr; [|reflexivity].
      apply andb_true_iff in Hr as [H1 H6]. apply Z.leb_le in H1, H6.
      now rewrite (dict_get_pages_of pages b H) by lia.
    + intros Hlen. unfold add_ref. now rewrite Hm, (py_int_long book Hlen).
  - intros Hno. unfold add_ref.
    destruct (ref_pattern_match (strip ref)) as [[book page]|] eqn:E;
      [|reflexivity].
    apply ref_pattern_match_shape in E. destruct (Hno _ _ E).
  - reflexivity.
Qed.

Lemma add_ref_raises_on_long_book_number_witness :
  exists b,
    py_int "3" = Ok b
    /\ add_ref (<[3%Z := ["45a"]]> fresh_pages) " 3 : 45a" =
         Ok (if ((1 <=? b) && (b <=? 6))%Z
             then <[b := pages_of (<[3%Z := ["45a"]]> fresh_pages) b ++ ["45a"]]>
                    (<[3%Z := ["45a"]]> fresh_pages)
             else <[3%Z := ["45a"]]> fresh_pages).
Proof.
  destruct add_ref_raises_on_long_book_number as (_ & _ & Hall).
  apply (Hall (<[3%Z := ["45a"]]> fresh_pages) " 3 : 45a").
  - vm_compute. reflexivity.
  - exists " ", " ", "". repeat split.
  - vm_compute. discriminate.
Defined.

(** C5, as the code has it.  A content line that splits in two parts
    sets [current_subject], to its trimmed first part, exactly when no
    subject is in progress and the line does not end with a comma; a
    line with no separator never sets it.  So a line that ends with a
    comma never sets the subject, and its references can reach the row
    of a subject captured from a later line: "x\t1:5," followed by
    "Bananas\t2:9" gives one row for "Bananas" with page 5 under
    book 1 and page 9 under book 2. *)
Theorem subject_set_iff_two_parts_no_subject_no_comma :
  (forall st line,
      content line ->
      (sets_subject st line <->
         (1 < length (split_parts line))%nat
         /\ current_subject st = ""
         /\ endswith line "," = false)
      /\ (sets_subject st line ->
          exists p0 rest,
            split_parts line = p0 :: rest
            /\ capture_subject st line (split_parts line) =
                 Ok {| data := data st;
                       current_subject := strip p0;
                       book_pages := book_pages st |}))
  /\ parse_index [tabbed "x" "1:5,"; tabbed "Bananas" "2:9"] =
       Ok [["Bananas"; format_pages ["5"]; format_pages ["9"]; ""; ""; ""; ""]].
Proof.
  split; [|vm_compute; reflexivity].
  intros st line (Hstrip & Ht & _).
  destruct line as [|c s]; [discriminate|].
  assert (isspace c = false) as Hc by (eapply strip_head, Hstrip).
  destruct (split_parts_head c s Hc) as (p0 & rest & Hparts).
  destruct (strip_keeps_head c p0 Hc) as [r Hr].
  assert (forall st1,
    capture_subject st (String c s) (split_parts (String c s)) = Ok st1 ->
    current_subject st1 <> current_subject st ->
    current_subject st = "" /\ endswith (String c s) "," = false
    /\ st1 = {| data := data st; current_subject := strip (String c p0);
                book_pages := book_pages st |}) as Hcap.
  { intros st1. unfold capture_subject. rewrite Hparts, list_get_0.
    destruct (truthy (current_subject st)) eqn:Hsub;
      destruct (endswith (String c s) ",");
      cbn [negb andb bind]; intros [= <-] Hne;
      try (now destruct Hne).
    apply truthy_false in Hsub. auto. }
  split.
  - split.
    + intros (Hlen & st1 & H1 & Hne).
      destruct (Hcap st1 H1 Hne) as (Hs & Hcomma & _). auto.
    + intros (Hlen & Hs & Hcomma). split; [exact Hlen|].
      eexists. split.
      * unfold capture_subject. rewrite Hs, Hcomma, Hparts, list_get_0.
        reflexivity.
      * cbn [current_subject]. rewrite Hs, Hr. discriminate.
  - intros (Hlen & st1 & H1 & Hne).
    destruct (Hcap st1 H1 Hne) as (_ & _ & ->).
    exists (String c p0), rest. split; [exact Hparts | exact H1].
Qed.

Lemma subject_set_iff_two_parts_no_subject_no_comma_witness :
  sets_subject initial_state (tabbed "Apples" "1:5,1:6").
Proof.
  destruct subject_set_iff_two_parts_no_subject_no_comma as [Hrule _].
  apply (Hrule initial_state (tabbed "Apples" "1:5,1:6")).
  - repeat split.
  - repeat split. vm_compute. lia.
Defined.

(** C5 as the claim words it fails: the line "Apples" is a content
    line, no subject is in progress and it does not end with a comma,
    yet it sets no subject, because it has no second part. *)
Lemma subject_set_iff_no_subject_no_comma_counterexample :
  ~ (forall st line,
        content line ->
        (sets_subject st line <->
           current_subject st = "" /\ endswith line "," = false)).
Proof.
  intros Hclaim.
  assert (content "Apples") as Hcontent by (repeat split).
  destruct (Hclaim initial_state "Apples" Hcontent) as [_ Hset].
  destruct Hset as [Hlen _]; [split; reflexivity|].
  vm_compute in Hlen. lia.
Qed.

(** C6.  When the marker occurs in the text of a docx, pdf or txt
    file, [extract_text] returns the lines of what follows the
    leftmost occurrence of the marker, trimmed at both ends. *)
Theorem extract_text_after_first_marker ext full_text :
  ext = "docx" \/ ext = "pdf" \/ ext = "txt" ->
  occurs marker full_text ->
  exists pre post,
    full_text = pre +:+ marker +:+ post
    /\ (forall pre' post',
          full_text = pre' +:+ marker +:+ post' ->
          (String.length pre <= String.length pre')%nat)
    /\ extract_text ext full_text = Ok (splitlines (strip post)).
Proof.
  intros Hext Hocc.
  pose proof (proj2 (str_in_occurs marker full_text) Hocc) as Hin.
  destruct (partition_first marker full_text) as [[pre post]|] eqn:P.
  2:{ unfold str_in in Hin. rewrite P in Hin. discriminate. }
  destruct (partition_first_Some _ _ _ _ P) as [Hsplit Hleft].
  exists pre, post. split; [exact Hsplit|]. split; [exact Hleft|].
  assert (after_marker full_text = Ok (strip post)) as Hafter.
  { unfold after_marker, split1. now rewrite Hin, P. }
  unfold extract_text.
  destruct Hext as [->|[->| ->]]; simpl; now rewrite Hafter.
Qed.

Lemma extract_text_after_first_marker_witness :
  exists pre post,
    "Cover" +:+ marker +:+ String LF (tabbed "Apples" "1:5") =
      pre +:+ marker +:+ post
    /\ (forall pre' post',
          "Cover" +:+ marker +:+ String LF (tabbed "Apples" "1:5") =
            pre' +:+ marker +:+ post' ->
          (String.length pre <= String.length pre')%nat)
    /\ extract_text "txt" ("Cover" +:+ marker +:+ String LF (tabbed "Apples" "1:5"))
       = Ok (splitlines (strip post)).
Proof.
  apply (extract_text_after_first_marker "txt").
  - right. right. reflexivity.
  - exists "Cover", (String LF (tabbed "Apples" "1:5")). reflexivity.
Defined.

(** C7.  When the marker does not occur in the text, [extract_text]
    returns the empty list of lines and raises nothing, whatever the
    kind of file. *)
Theorem extract_text_without_marker ext full_text :
  ~ occurs marker full_text -> extract_text ext full_text = Ok [].
Proof.
  intros Hno. apply str_in_not_occurs in Hno.
  assert (after_marker full_text = Ok "") as Hafter.
  { unfold after_marker. now rewrite Hno. }
  unfold extract_text.
  destruct (String.eqb ext "docx"); [now rewrite Hafter|].
  destruct (String.eqb ext "pdf"); [now rewrite Hafter|].
  destruct (String.eqb ext "txt"); [now rewrite Hafter|].
  reflexivity.
Qed.

Lemma extract_text_without_marker_witness :
  extract_text "pdf" "Index of names" = Ok [].
Proof.
  apply (extract_text_without_marker "pdf" "Index of names").
  apply str_in_not_occurs. reflexivity.
Defined.

(* ================================================================= *)
(** * Further properties of the parser *)

(** ** Rows emitted earlier do not influence a step *)

Lemma subject_row_shift rows0 st : subject_row (shift rows0 st) = subject_row st.
Proof. reflexivity. Qed.

Lemma flush_shift rows0 st : flush (shift rows0 st) = rmap (shift rows0) (flush st).
Proof.
  unfold flush, rmap. rewrite subject_row_shift.
  destruct (subject_row st) as [row|e]; [|reflexivity].
  unfold shift. cbn [bind data current_subject book_pages].
  now rewrite app_assoc.
Qed.

Lemma divider_line_shift rows0 st line :
  divider_line (shift rows0 st) line = rmap (shift rows0) (divider_line st line).
Proof.
  unfold divider_line, rmap. rewrite subject_row_shift.
  cbn [shift data current_subject book_pages].
  destruct (truthy (current_subject st)).
  - destruct (subject_row st) as [row|e]; [|reflexivity].
    cbn [bind]. unfold shift. cbn [data current_subject book_pages].
    now rewrite !app_assoc.
  - cbn [bind]. unfold shift. cbn [data current_subject book_pages].
    now rewrite app_assoc.
Qed.

Lemma capture_subject_shift rows0 st line parts :
  capture_subject (shift rows0 st) line parts
  = rmap (shift rows0) (capture_subject st line parts).
Proof.
  unfold capture_subject, rmap. cbn [shift data current_subject book_pages].
  destruct (negb (truthy (current_subject st)) && negb (endswith line ","));
    [|reflexivity].
  destruct (list_get parts 0); reflexivity.
Qed.

Lemma collect_refs_shift rows0 st parts :
  collect_refs (shift rows0 st) parts = rmap (shift rows0) (collect_refs st parts).
Proof.
  unfold collect_refs, rmap. cbn [shift data current_subject book_pages].
  destruct (list_get parts 1); [|reflexivity]. cbn [bind].
  destruct (foldM add_ref _ _); reflexivity.
Qed.

Lemma flush_check_shift rows0 st line :
  flush_check (shift rows0 st) line = rmap (shift rows0) (flush_check st line).
Proof.
  unfold flush_check. cbn [shift data current_subject book_pages].
  destruct (negb (endswith line ",") && truthy (current_subject st)).
  - apply flush_shift.
  - reflexivity.
Qed.

Lemma bind_rmap {A B C : Type} (f : A -> B) (m : result A) (k : B -> result C) :
  bind (rmap f m) k = bind m (fun a => k (f a)).
Proof. destruct m; reflexivity. Qed.

Lemma rmap_bind {A B C : Type} (f : B -> C) (m : result A) (k : A -> result B) :
  rmap f (bind m k) = bind m (fun a => rmap f (k a)).
Proof. destruct m; reflexivity. Qed.

Lemma content_line_shift rows0 st line :
  content_line (shift rows0 st) line = rmap (shift rows0) (content_line st line).
Proof.
  unfold content_line. cbv zeta.
  destruct (1 <? length (split_parts line))%nat.
  - rewrite capture_subject_shift.
    destruct (capture_subject st line (split_parts line)) as [st1|e];
      [|reflexivity].
    change (rmap (shift rows0) (Ok st1)) with (Ok (shift rows0 st1)).
    cbn [bind]. rewrite collect_refs_shift.
    destruct (collect_refs st1 (split_parts line)) as [st2|e]; [|reflexivity].
    change (rmap (shift rows0) (Ok st2)) with (Ok (shift rows0 st2)).
    cbn [bind]. apply flush_check_shift.
  - cbn [bind]. apply flush_check_shift.
Qed.

Lemma process_line_shift rows0 st raw :
  process_line (shift rows0 st) raw = rmap (shift rows0) (process_line st raw).
Proof.
  unfold process_line.
  destruct (negb (truthy (strip raw))); [reflexivity|].
  destruct (is_divider (strip raw)).
  - apply divider_line_shift.
  - apply content_line_shift.
Qed.

Lemma run_shift rows0 lines st :
  run (shift rows0 st) lines = rmap (shift rows0) (run st lines).
Proof.
  unfold run. revert st. induction lines as [|l lines IH]; intros st;
    [reflexivity|].
  cbn [foldM]. rewrite process_line_shift.
  destruct (process_line st l) as [st1|e]; [|reflexivity].
  change (rmap (shift rows0) (Ok st1)) with (Ok (shift rows0 st1)).
  cbn [bind]. apply IH.
Qed.

Lemma run_app st l1 l2 :
  run st (l1 ++ l2) = (st1 <- run st l1 ;; run st1 l2).
Proof. apply foldM_app. Qed.

(** ** Trimming *)

Lemma rstrip_with_unfold p c s :
  rstrip_with p (String c s) =
    match rstrip_with p s with
    | EmptyString => if p c then EmptyString else String c EmptyString
    | String a r => String c (String a r)
    end.
Proof. reflexivity. Qed.

Lemma rstrip_with_idem p s : rstrip_with p (rstrip_with p s) = rstrip_with p s.
Proof.
  induction s as [|c s IH]; [reflexivity|]. rewrite rstrip_with_unfold.
  destruct (rstrip_with p s) as [|a r] eqn:E.
  - destruct (p c) eqn:Hc; [reflexivity|].
    rewrite rstrip_with_unfold. cbn [rstrip_with]. now rewrite Hc.
  - rewrite rstrip_with_unfold, IH. reflexivity.
Qed.

Lemma rstrip_with_empty p s :
  rstrip_with p s = EmptyString <-> str_all p s = true.
Proof.
  induction s as [|c s IH]; [now split|]. cbn [rstrip_with str_all].
  destruct (rstrip_with p s) as [|a r].
  - destruct (p c); cbn [andb]; [|now split].
    split; intros _; [now apply IH | reflexivity].
  - split; [discriminate|]. intros H. apply andb_true_iff in H as [_ H].
    apply IH in H. discriminate.
Qed.

Lemma lstrip_with_empty p s :
  lstrip_with p s = EmptyString <-> str_all p s = true.
Proof.
  induction s as [|c s IH]; [now split|]. cbn [lstrip_with str_all].
  destruct (p c); cbn [andb]; [exact IH | now split].
Qed.

Lemma lstrip_with_all p s : str_all p (lstrip_with p s) = true -> lstrip_with p s = EmptyString.
Proof.
  intros H. destruct (lstrip_with p s) as [|c r] eqn:E; [reflexivity|].
  apply lstrip_with_head in E. cbn [str_all] in H. rewrite E in H. discriminate.
Qed.

(** Trimming yields the empty string exactly on whitespace. *)
Lemma strip_empty s : strip s = EmptyString <-> str_all isspace s = true.
Proof.
  unfold strip. rewrite rstrip_with_empty. split.
  - intros H. apply lstrip_with_all in H. now apply lstrip_with_empty.
  - intros H. apply lstrip_with_empty in H. now rewrite H.
Qed.

Lemma strip_idem s : strip (strip s) = strip s.
Proof.
  destruct (strip s) as [|c r] eqn:E; [reflexivity|].
  pose proof (strip_head _ _ _ E) as Hc.
  unfold strip. rewrite (lstrip_with_id isspace c r Hc).
  rewrite <- E. unfold strip. apply rstrip_with_idem.
Qed.

(** ** One pass of the loop, no subject being in progress *)

Lemma format_pages_empty_or_quoted pages : empty_or_quoted (format_pages pages).
Proof.
  destruct pages as [|p pages]; [now left|].
  right. eexists. reflexivity.
Qed.

Lemma book_fields_ok pages :
  length (book_fields pages) = 6%nat /\ Forall empty_or_quoted (book_fields pages).
Proof.
  unfold book_fields. rewrite py_range_1_7. split; [reflexivity|].
  cbn [fmap list_fmap].
  repeat (apply List.Forall_cons; [apply format_pages_empty_or_quoted|]).
  apply List.Forall_nil.
Qed.

Lemma subject_row_ok subject pages :
  subject <> EmptyString -> row_ok (subject :: book_fields pages).
Proof.
  intros H. exists subject, (book_fields pages).
  destruct (book_fields_ok pages). auto.
Qed.

Lemma is_divider_char line :
  is_divider line = true -> exists c, line = String c EmptyString /\ isalpha c = true.
Proof.
  unfold is_divider, str_isalpha. intros H.
  apply andb_true_iff in H as [Hlen H]. apply Nat.eqb_eq in Hlen.
  destruct line as [|c [|d s]]; try discriminate.
  exists c. split; [reflexivity|]. cbn in H. now rewrite andb_true_r in H.
Qed.

Lemma divider_row_ok line : is_divider line = true -> row_ok (divider_row line).
Proof.
  intros H. destruct (is_divider_char line H) as (c & -> & _).
  exists (String c EmptyString), (replicate 6 EmptyString).
  split; [reflexivity|]. split; [discriminate|]. split; [reflexivity|].
  repeat constructor; now left.
Qed.

Lemma state_eta st :
  current_subject st = EmptyString ->
  {| data := data st; current_subject := EmptyString;
     book_pages := book_pages st |} = st.
Proof. destruct st; cbn. now intros ->. Qed.

Ltac split_all := repeat match goal with |- _ /\ _ => split end.

Lemma foldM_add_ref_Ok pages toks :
  has_books pages = true ->
  forallb int_safe toks = true ->
  exists pages', foldM add_ref pages toks = Ok pages' /\ has_books pages' = true.
Proof.
  revert pages. induction toks as [|tok toks IH]; intros pages H Hsafe.
  - exists pages. auto.
  - cbn [forallb] in Hsafe. apply andb_true_iff in Hsafe as [Htok Hsafe].
    destruct (add_ref_Ok pages tok H Htok) as (pages1 & Hadd & H1).
    cbn [foldM]. rewrite Hadd. cbn [bind]. now apply IH.
Qed.

(** The loop over the tokens stops at the first book number that is
    too long for [int]. *)
Lemma foldM_add_ref_unsafe pages toks :
  has_books pages = true ->
  forallb int_safe toks = false ->
  foldM add_ref pages toks = Raise ValueError.
Proof.
  revert pages. induction toks as [|tok toks IH]; intros pages H Hsafe;
    [discriminate|].
  cbn [forallb] in Hsafe. cbn [foldM].
  destruct (int_safe tok) eqn:Htok.
  - destruct (add_ref_Ok pages tok H Htok) as (pages1 & Hadd & H1).
    rewrite Hadd. cbn [bind]. now apply IH.
  - now rewrite (add_ref_unsafe pages tok Htok).
Qed.

Lemma line_tokens_parts raw p0 p1 tl :
  split_parts (strip raw) = p0 :: p1 :: tl ->
  line_tokens raw = split_commas (rstrip_commas p1).
Proof. unfold line_tokens. now intros ->. Qed.

Lemma process_line_step st raw :
  has_books (book_pages st) = true ->
  current_subject st = EmptyString ->
  line_safe raw = true ->
  exists kind extra pages',
    process_line st raw =
      Ok {| data := data st ++ extra; current_subject := EmptyString;
            book_pages := pages' |}
    /\ has_books pages' = true
    /\ match kind with
       | Skipped => extra = [] /\ pages' = book_pages st
                    /\ (blank raw = true
                        \/ (length (split_parts (strip raw)) <= 1)%nat)
       | Divided => extra = [divider_row (strip raw)] /\ pages' = fresh_pages
                    /\ is_divider (strip raw) = true
       | Stored => extra = [] /\ ends_with_comma raw = true
                   /\ exists p0 p1 tl,
                        split_parts (strip raw) = p0 :: p1 :: tl
                        /\ foldM add_ref (book_pages st)
                             (split_commas (rstrip_commas p1)) = Ok pages'
       | Completed => pages' = fresh_pages /\ ends_with_comma raw = false
                      /\ blank raw = false /\ is_divider (strip raw) = false
                      /\ exists p0 p1 tl pages1,
                           split_parts (strip raw) = p0 :: p1 :: tl
                           /\ strip p0 <> EmptyString
                           /\ foldM add_ref (book_pages st)
                                (split_commas (rstrip_commas p1)) = Ok pages1
                           /\ extra = [strip p0 :: book_fields pages1]
       end.
Proof.
  intros H Hs Hsafe. unfold line_safe in Hsafe.
  unfold process_line, blank, ends_with_comma.
  destruct (strip raw) as [|c s] eqn:Hline.
  { exists Skipped, [], (book_pages st). cbn [truthy negb].
    rewrite app_nil_r, (state_eta st Hs). split_all; auto. }
  cbn [truthy negb].
  pose proof (strip_head _ _ _ Hline) as Hc.
  destruct (is_divider (String c s)) eqn:Hdiv.
  { exists Divided, [divider_row (String c s)], fresh_pages.
    rewrite (divider_line_Ok st _ H), Hs. cbn [truthy app].
    split_all; auto using has_books_fresh. }
  unfold content_line. cbv zeta.
  destruct (1 <? length (split_parts (String c s)))%nat eqn:Hlen.
  2:{ apply Nat.ltb_ge in Hlen. exists Skipped, [], (book_pages st).
      cbn [bind]. unfold flush_check. rewrite Hs. cbn [truthy].
      rewrite andb_false_r, app_nil_r, (state_eta st Hs).
      split_all; auto. }
  apply Nat.ltb_lt in Hlen.
  destruct (split_parts_head c s Hc) as (q0 & rest & Hparts).
  rewrite Hparts in Hlen |- *.
  destruct rest as [|p1 tl]; [cbn in Hlen; lia|].
  rewrite <- Hline in Hparts.
  rewrite (line_tokens_parts raw _ _ _ Hparts) in Hsafe.
  rewrite Hline in Hparts.
  destruct (strip_keeps_head c q0 Hc) as [r Hr].
  unfold capture_subject. rewrite Hs, list_get_0. cbn [truthy negb andb].
  destruct (endswith (String c s) ",") eqn:Hcomma; cbn [negb bind].
  - unfold collect_refs. rewrite list_get_1. cbn [bind].
    destruct (foldM_add_ref_Ok (book_pages st) (split_commas (rstrip_commas p1))
                H Hsafe) as (pages' & Hfold & Hp).
    rewrite Hfold. cbn [bind]. unfold flush_check. rewrite Hcomma.
    cbn [negb andb data current_subject]. rewrite Hs.
    exists Stored, [], pages'. rewrite app_nil_r.
    split; [reflexivity|]. split; [exact Hp|]. split; [reflexivity|].
    split; [reflexivity|]. eauto.
  - unfold collect_refs. rewrite list_get_1.
    cbn [bind data current_subject book_pages].
    destruct (foldM_add_ref_Ok (book_pages st) (split_commas (rstrip_commas p1))
                H Hsafe) as (pages1 & Hfold & Hp).
    rewrite Hfold. cbn [bind]. unfold flush_check. rewrite Hcomma.
    cbn [negb andb data current_subject]. rewrite Hr. cbn [truthy].
    rewrite flush_Ok by exact Hp. cbn [data current_subject book_pages].
    exists Completed, [String c r :: book_fields pages1], fresh_pages.
    split; [reflexivity|]. split; [apply has_books_fresh|].
    split; [reflexivity|]. split; [reflexivity|]. split; [reflexivity|].
    split; [reflexivity|].
    exists (String c q0), p1, tl, pages1. rewrite Hr.
    split; [reflexivity|]. split; [discriminate|]. auto.
Qed.

(** What every step appends: at most one row, and a well-formed one. *)
Lemma process_line_rows st raw :
  has_books (book_pages st) = true ->
  current_subject st = EmptyString ->
  line_safe raw = true ->
  exists extra pages',
    process_line st raw =
      Ok {| data := data st ++ extra; current_subject := EmptyString;
            book_pages := pages' |}
    /\ has_books pages' = true
    /\ Forall row_ok extra
    /\ (length extra <= if blank raw then 0 else 1)%nat.
Proof.
  intros H Hs Hsafe.
  destruct (process_line_step st raw H Hs Hsafe)
    as (kind & extra & pages' & Hp & Hb & Hk).
  exists extra, pages'. split; [exact Hp|]. split; [exact Hb|].
  destruct kind.
  - destruct Hk as (-> & _). split; [constructor|]. cbn. lia.
  - destruct Hk as (-> & _ & Hdiv). split.
    + repeat constructor. now apply divider_row_ok.
    + unfold blank. destruct (is_divider_char _ Hdiv) as (c & -> & _). cbn. lia.
  - destruct Hk as (-> & _). split; [constructor|]. cbn. lia.
  - destruct Hk as (_ & _ & Hblank & _ & p0 & p1 & tl & pages1 & _ & Hne & _ & ->).
    split.
    + repeat constructor. now apply subject_row_ok.
    + rewrite Hblank. cbn. lia.
Qed.

Lemma split_parts_empty : split_parts EmptyString = [].
Proof. reflexivity. Qed.

Lemma is_divider_one_part line raw :
  strip raw = line -> is_divider line = true -> split_parts line = [line].
Proof.
  intros Hline Hdiv. destruct (is_divider_char _ Hdiv) as (c & -> & _).
  pose proof (strip_head _ _ _ Hline) as Hc.
  apply split_parts_token; [reflexivity|].
  cbn [str_all]. unfold nonspace. now rewrite Hc.
Qed.

(** A line with a book number too long for [int] makes the pass raise,
    whatever the state. *)
Lemma process_line_unsafe st raw :
  has_books (book_pages st) = true ->
  line_safe raw = false ->
  process_line st raw = Raise ValueError.
Proof.
  intros H Hsafe. unfold line_safe in Hsafe.
  destruct (split_parts (strip raw)) as [|p0 [|p1 tl]] eqn:Hparts;
    try (unfold line_tokens in Hsafe; rewrite Hparts in Hsafe; discriminate).
  rewrite (line_tokens_parts raw _ _ _ Hparts) in Hsafe.
  unfold process_line.
  destruct (strip raw) as [|c s] eqn:Hline; [discriminate|].
  cbn [truthy negb].
  destruct (is_divider (String c s)) eqn:Hdiv.
  { rewrite (is_divider_one_part _ raw Hline Hdiv) in Hparts. discriminate. }
  unfold content_line. cbv zeta. rewrite Hparts.
  cbn [length Nat.ltb Nat.leb]. unfold capture_subject. rewrite list_get_0.
  destruct (negb (truthy (current_subject st)) && negb (endswith (String c s) ","));
    cbn [bind]; unfold collect_refs; rewrite list_get_1;
    cbn [bind book_pages];
    now rewrite (foldM_add_ref_unsafe _ _ H Hsafe).
Qed.

Lemma run_rows lines st :
  has_books (book_pages st) = true ->
  current_subject st = EmptyString ->
  forallb line_safe lines = true ->
  exists extra pages',
    run st lines =
      Ok {| data := data st ++ extra; current_subject := EmptyString;
            book_pages := pages' |}
    /\ has_books pages' = true
    /\ Forall row_ok extra
    /\ (length extra <= length (List.filter (fun l => negb (blank l)) lines))%nat.
Proof.
  revert st. induction lines as [|l lines IH]; intros st H Hs Hsafe.
  - exists [], (book_pages st). cbn. rewrite app_nil_r, (state_eta st Hs).
    split_all; auto.
  - cbn [forallb] in Hsafe. apply andb_true_iff in Hsafe as [Hl Hsafe].
    destruct (process_line_rows st l H Hs Hl) as (e1 & p1 & Hp & Hb & Hok & Hlen).
    destruct (IH {| data := data st ++ e1; current_subject := EmptyString;
                    book_pages := p1 |} Hb eq_refl Hsafe)
      as (e2 & p2 & Hrun & Hb2 & Hok2 & Hlen2).
    exists (e1 ++ e2), p2. unfold run in *. cbn [foldM]. rewrite Hp. cbn [bind].
    rewrite Hrun. cbn [data]. rewrite app_assoc.
    split; [reflexivity|]. split; [exact Hb2|].
    split; [now apply Forall_app|].
    rewrite length_app. cbn [List.filter].
    destruct (blank l); cbn [negb length] in *; lia.
Qed.

(** ** The pages the references leave in the dictionary *)

Lemma pages_of_insert (pages : gmap Z (list string)) b l b' :
  pages_of (<[b := l]> pages) b' = if (b =? b')%Z then l else pages_of pages b'.
Proof.
  unfold pages_of. rewrite lookup_insert.
  destruct (Z.eqb_spec b b') as [->|Hne].
  - now rewrite decide_True.
  - now rewrite decide_False.
Qed.

Lemma add_ref_token pages tok :
  has_books pages = true ->
  int_safe tok = true ->
  add_ref pages tok =
    Ok (match token_ref tok with
        | Some (b, page) => <[b := pages_of pages b ++ [page]]> pages
        | None => pages
        end)
  /\ match token_ref tok with
     | Some (b, _) => (1 <= b <= 6)%Z
     | None => True
     end.
Proof.
  intros H Hsafe. unfold add_ref, token_ref. unfold int_safe in Hsafe.
  destruct (ref_pattern_match (strip tok)) as [[book page]|] eqn:E; [|auto].
  apply ref_pattern_match_shape in E as (w1 & w2 & rest & _ & Tb & Hb & _).
  apply Z.leb_le in Hsafe.
  destruct (py_int_Ok book Tb Hb Hsafe) as (b & -> & _). cbn [bind].
  destruct ((1 <=? b)%Z && (b <=? 6)%Z) eqn:Hr; [|auto].
  apply andb_true_iff in Hr as [H1 H6]. apply Z.leb_le in H1, H6.
  rewrite (dict_get_pages_of pages b H) by lia. cbn [bind]. split; [reflexivity|lia].
Qed.

Lemma pages_for_cons b tok toks :
  pages_for b (tok :: toks) =
    match token_ref tok with
    | Some (b', page) => if (b' =? b)%Z then page :: pages_for b toks
                         else pages_for b toks
    | None => pages_for b toks
    end.
Proof.
  unfold pages_for. cbn [omap list_omap].
  destruct (token_ref tok) as [[b' page]|]; [|reflexivity].
  destruct (b' =? b)%Z; reflexivity.
Qed.

Lemma pages_for_app b toks1 toks2 :
  pages_for b (toks1 ++ toks2) = pages_for b toks1 ++ pages_for b toks2.
Proof.
  induction toks1 as [|tok toks1 IH]; [reflexivity|].
  rewrite <- app_comm_cons, !pages_for_cons, IH.
  destruct (token_ref tok) as [[b' page]|]; [|reflexivity].
  destruct (b' =? b)%Z; reflexivity.
Qed.

Lemma foldM_add_ref_pages toks pages :
  has_books pages = true ->
  forallb int_safe toks = true ->
  exists pages',
    foldM add_ref pages toks = Ok pages'
    /\ has_books pages' = true
    /\ dom pages' = dom pages
    /\ forall b, pages_of pages' b = pages_of pages b ++ pages_for b toks.
Proof.
  revert pages. induction toks as [|tok toks IH]; intros pages H Hsafe.
  - exists pages. cbn [foldM]. split_all; auto.
    intros b. unfold pages_for. cbn. now rewrite app_nil_r.
  - cbn [forallb] in Hsafe. apply andb_true_iff in Hsafe as [Hsafe1 Hsafe].
    destruct (add_ref_token pages tok H Hsafe1) as [Hadd Hrange].
    cbn [foldM]. rewrite Hadd. cbn [bind].
    destruct (token_ref tok) as [[b0 page]|] eqn:Htok.
    + assert (has_books (<[b0 := pages_of pages b0 ++ [page]]> pages) = true)
        as H' by now apply has_books_insert.
      destruct (IH _ H' Hsafe) as (pages' & Hfold & Hb & Hdom & Hpages).
      exists pages'. split; [exact Hfold|]. split; [exact Hb|]. split.
      * rewrite Hdom, dom_insert_L.
        destruct (proj1 (has_books_spec pages) H b0 Hrange) as [l Hl].
        assert (b0 ∈ dom pages) as Hin by (apply elem_of_dom; eauto).
        now apply subseteq_union_1_L, singleton_subseteq_l.
      * intros b. rewrite Hpages, pages_of_insert, pages_for_cons, Htok.
        destruct (Z.eqb_spec b0 b) as [->|Hne].
        -- now rewrite <- app_assoc.
        -- reflexivity.
    + destruct (IH _ H Hsafe) as (pages' & Hfold & Hb & Hdom & Hpages).
      exists pages'. split_all; auto.
      intros b. now rewrite Hpages, pages_for_cons, Htok.
Qed.

Lemma book_fields_pages pages toks :
  (forall b, pages_of pages b = pages_for b toks) ->
  book_fields pages = fields_for toks.
Proof.
  intros H. unfold book_fields, fields_for.
  apply list_fmap_ext. intros _ b _. now rewrite H.
Qed.

(** X1.  When no token has a book number too long for [int] (more
    than 4300 digits), the loop over the tokens of a reference list
    succeeds, adds no key to the dictionary and, for every book,
    appends to its list the pages of the tokens that cite it, in the
    order of the tokens and with their repetitions; tokens of the wrong
    shape or citing a book outside 1..6 leave no trace.  When some
    token has such a book number, the loop raises [ValueError]. *)
Theorem references_are_collected_in_order toks pages :
  has_books pages = true ->
  (forallb int_safe toks = true ->
   exists pages',
     foldM add_ref pages toks = Ok pages'
     /\ dom pages' = dom pages
     /\ forall b, pages_of pages' b = pages_of pages b ++ pages_for b toks)
  /\ (forallb int_safe toks = false ->
      foldM add_ref pages toks = Raise ValueError).
Proof.
  intros H. split.
  - intros Hsafe.
    destruct (foldM_add_ref_pages toks pages H Hsafe) as (pages' & Hf & _ & Hd & Hp).
    eauto.
  - apply foldM_add_ref_unsafe, H.
Qed.

Lemma references_are_collected_in_order_witness :
  (exists pages',
     foldM add_ref fresh_pages ["1:5"; " 2 : 9a"; "7:12"; "x"; "1:5"; "01:6"] = Ok pages'
     /\ dom pages' = dom fresh_pages
     /\ forall b, pages_of pages' b =
                  pages_of fresh_pages b
                  ++ pages_for b ["1:5"; " 2 : 9a"; "7:12"; "x"; "1:5"; "01:6"])
  /\ foldM add_ref fresh_pages ["1:5"; digits_run 4301 +:+ ":6"; "2:7"]
     = Raise ValueError.
Proof.
  split.
  - apply (references_are_collected_in_order
             ["1:5"; " 2 : 9a"; "7:12"; "x"; "1:5"; "01:6"] fresh_pages);
      vm_compute; reflexivity.
  - apply (references_are_collected_in_order
             ["1:5"; digits_run 4301 +:+ ":6"; "2:7"] fresh_pages);
      vm_compute; reflexivity.
Defined.

(** ** The rows of [parse_index] *)

Lemma initial_state_reset : initial_state = reset_state [].
Proof. reflexivity. Qed.

Lemma finish_no_subject rows pages :
  finish {| data := rows; current_subject := EmptyString; book_pages := pages |}
  = Ok rows.
Proof. reflexivity. Qed.

Lemma parse_index_run lines :
  forallb line_safe lines = true ->
  exists rows pages',
    run initial_state lines =
      Ok {| data := rows; current_subject := EmptyString; book_pages := pages' |}
    /\ parse_index lines = Ok rows
    /\ has_books pages' = true
    /\ Forall row_ok rows
    /\ (length rows <= length (List.filter (fun l => negb (blank l)) lines))%nat.
Proof.
  intros Hsafe.
  destruct (run_rows lines initial_state has_books_fresh eq_refl Hsafe)
    as (rows & pages' & Hrun & Hb & Hok & Hlen).
  cbn [data initial_state app] in Hrun.
  exists rows, pages'. split; [exact Hrun|].
  unfold parse_index. rewrite Hrun. cbn [bind]. rewrite finish_no_subject. auto.
Qed.

Lemma run_unsafe lines st :
  has_books (book_pages st) = true ->
  current_subject st = EmptyString ->
  forallb line_safe lines = false ->
  run st lines = Raise ValueError.
Proof.
  revert st. induction lines as [|l lines IH]; intros st H Hs Hsafe;
    [discriminate|].
  cbn [forallb] in Hsafe. unfold run in *. cbn [foldM].
  destruct (line_safe l) eqn:Hl.
  - destruct (process_line_rows st l H Hs Hl) as (e1 & p1 & Hp & Hb & _).
    rewrite Hp. cbn [bind]. now apply IH.
  - now rewrite (process_line_unsafe st l H Hl).
Qed.

(** A book number too long for [int], anywhere in the input, makes
    [parse_index] raise. *)
Lemma parse_index_unsafe lines :
  forallb line_safe lines = false -> parse_index lines = Raise ValueError.
Proof.
  intros Hsafe. unfold parse_index.
  now rewrite (run_unsafe lines initial_state has_books_fresh eq_refl Hsafe).
Qed.

(** X2.  [parse_index] returns rows exactly when no reference of the
    input has a book number too long for [int] (more than 4300
    digits); otherwise it raises [ValueError].  Each row it returns has
    a non-empty subject followed by exactly six book fields, each of
    them empty or enclosed in double quotes: the rows fit the seven
    columns of the header written before them. *)
Theorem parse_index_rows_well_formed lines :
  (forallb line_safe lines = true ->
   exists rows, parse_index lines = Ok rows /\ Forall row_ok rows)
  /\ (forallb line_safe lines = false -> parse_index lines = Raise ValueError).
Proof.
  split.
  - intros Hsafe.
    destruct (parse_index_run lines Hsafe) as (rows & _ & _ & Hp & _ & Hok & _).
    eauto.
  - apply parse_index_unsafe.
Qed.

Lemma parse_index_rows_well_formed_witness :
  (exists rows,
     parse_index ["A"; tabbed "Apples" "1:5,1:6"; tabbed "Bananas" "2:9"] = Ok rows
     /\ Forall row_ok rows)
  /\ parse_index ["A"; tabbed "Apples" (digits_run 4301 +:+ ":5")]
     = Raise ValueError.
Proof.
  split.
  - apply (parse_index_rows_well_formed
             ["A"; tabbed "Apples" "1:5,1:6"; tabbed "Bananas" "2:9"]).
    vm_compute. reflexivity.
  - apply (parse_index_rows_well_formed
             ["A"; tabbed "Apples" (digits_run 4301 +:+ ":5")]).
    vm_compute. reflexivity.
Defined.

(** X3.  When it returns, [parse_index] never returns more rows than
    its input has lines that are not blank. *)
Theorem parse_index_at_most_one_row_per_line lines :
  forallb line_safe lines = true ->
  exists rows,
    parse_index lines = Ok rows
    /\ (length rows <= length (List.filter (fun l => negb (blank l)) lines))%nat.
Proof.
  intros Hsafe.
  destruct (parse_index_run lines Hsafe) as (rows & _ & _ & Hp & _ & _ & Hlen).
  eauto.
Qed.

Lemma parse_index_at_most_one_row_per_line_witness :
  exists rows,
    parse_index ["A"; "  "; tabbed "Apples" "1:5,"; "stray"; tabbed "Bananas" "2:9"]
    = Ok rows
    /\ (length rows <=
        length (List.filter (fun l => negb (blank l))
                  ["A"; "  "; tabbed "Apples" "1:5,"; "stray";
                   tabbed "Bananas" "2:9"]))%nat.
Proof.
  apply (parse_index_at_most_one_row_per_line
           ["A"; "  "; tabbed "Apples" "1:5,"; "stray"; tabbed "Bananas" "2:9"]).
  vm_compute. reflexivity.
Defined.

Lemma process_line_blank st raw : blank raw = true -> process_line st raw = Ok st.
Proof. unfold blank, process_line. now intros ->. Qed.

Lemma run_filter_blank lines st :
  run st (List.filter (fun l => negb (blank l)) lines) = run st lines.
Proof.
  unfold run. revert st. induction lines as [|l lines IH]; intros st;
    [reflexivity|].
  cbn [List.filter foldM]. destruct (blank l) eqn:Hl; cbn [negb].
  - rewrite (process_line_blank st l Hl). cbn [bind]. apply IH.
  - cbn [foldM]. destruct (process_line st l); cbn [bind]; [apply IH|reflexivity].
Qed.

(** X4.  Lines that are empty or made of whitespace only have no
    effect: removing them from the input changes nothing in the
    result. *)
Theorem blank_lines_are_ignored lines :
  parse_index (List.filter (fun l => negb (blank l)) lines) = parse_index lines.
Proof. unfold parse_index. now rewrite run_filter_blank. Qed.

Lemma process_line_strip st raw : process_line st (strip raw) = process_line st raw.
Proof. unfold process_line. now rewrite strip_idem. Qed.

(** X5.  Whitespace around a line is irrelevant: trimming every line
    beforehand gives the same rows. *)
Theorem surrounding_whitespace_is_irrelevant lines :
  parse_index (List.map strip lines) = parse_index lines.
Proof.
  unfold parse_index, run. generalize initial_state.
  induction lines as [|l lines IH]; intros st; [reflexivity|].
  cbn [List.map foldM]. rewrite process_line_strip.
  destruct (process_line st l) as [st1|e]; cbn [bind]; [apply IH|reflexivity].
Qed.

(** X6.  As long as the loop does not raise, no subject is in
    progress after any line, hence after any prefix of the input: a
    subject captured on line 112 is flushed on line 122 of the same
    pass.  So the flush that follows the loop (lines 125 and 126) never
    adds a row, and the rows returned are those the loop appended.
    The loop does not raise when no reference has a book number too
    long for [int]. *)
Theorem no_subject_survives_a_line lines :
  (forall st,
      run initial_state lines = Ok st ->
      current_subject st = EmptyString /\ parse_index lines = Ok (data st))
  /\ (forallb line_safe lines = true ->
      exists st, run initial_state lines = Ok st).
Proof.
  split.
  - intros st Hrun. split.
    + apply (run_subject _ _ _ Hrun eq_refl).
    + apply parse_index_rows_of_loop, Hrun.
  - intros Hsafe.
    destruct (parse_index_run lines Hsafe) as (rows & pages' & Hrun & _).
    eauto.
Qed.

Lemma no_subject_survives_a_line_witness :
  exists st,
    run initial_state [tabbed "Apples" "1:10, 2:20,"; "3:30"] = Ok st
    /\ current_subject st = EmptyString
    /\ parse_index [tabbed "Apples" "1:10, 2:20,"; "3:30"] = Ok (data st).
Proof.
  destruct (no_subject_survives_a_line [tabbed "Apples" "1:10, 2:20,"; "3:30"])
    as [Hpart Htotal].
  destruct Htotal as [st Hrun]; [vm_compute; reflexivity|].
  exists st. split; [exact Hrun|]. apply Hpart, Hrun.
Defined.

Lemma run_dom lines st :
  has_books (book_pages st) = true ->
  current_subject st = EmptyString ->
  dom (book_pages st) = dom fresh_pages ->
  forallb line_safe lines = true ->
  exists st', run st lines = Ok st' /\ dom (book_pages st') = dom fresh_pages.
Proof.
  revert st. induction lines as [|l lines IH]; intros st H Hs Hd Hsafe.
  - exists st. split; [reflexivity | exact Hd].
  - cbn [forallb] in Hsafe. apply andb_true_iff in Hsafe as [Hl Hsafe].
    destruct (process_line_step st l H Hs Hl)
      as (kind & extra & pages' & Hp & Hb & Hk).
    assert (dom pages' = dom fresh_pages) as Hd'.
    { destruct kind.
      - destruct Hk as (_ & -> & _). exact Hd.
      - destruct Hk as (_ & -> & _). reflexivity.
      - destruct Hk as (_ & _ & p0 & p1 & tl & Hparts & Hfold).
        unfold line_safe in Hl. rewrite (line_tokens_parts l _ _ _ Hparts) in Hl.
        destruct (foldM_add_ref_pages (split_commas (rstrip_commas p1))
                    (book_pages st) H Hl) as (pages2 & Hfold2 & _ & Hdom & _).
        rewrite Hfold in Hfold2. injection Hfold2 as ->. now rewrite Hdom.
      - destruct Hk as (-> & _). reflexivity. }
    destruct (IH {| data := data st ++ extra; current_subject := EmptyString;
                    book_pages := pages' |} Hb eq_refl Hd' Hsafe)
      as (st' & Hrun & Hd2).
    exists st'. unfold run in *. cbn [foldM]. rewrite Hp. cbn [bind]. auto.
Qed.

Lemma dom_fresh_pages i : i ∈ dom fresh_pages <-> (1 <= i <= 6)%Z.
Proof.
  rewrite elem_of_dom. split.
  - intros [l Hl]. unfold fresh_pages in Hl. rewrite py_range_1_7 in Hl.
    apply elem_of_list_to_map_2 in Hl. cbn in Hl.
    repeat (apply elem_of_cons in Hl as [Hl|Hl]; [injection Hl as -> _; lia|]).
    inversion Hl.
  - intros Hi. apply (proj1 (has_books_spec fresh_pages) has_books_fresh i Hi).
Qed.

(** X7.  On every input without a book number too long for [int],
    the dictionary keeps exactly the keys 1 to 6 it was created with:
    a reference to a book outside that range never adds a key. *)
Theorem book_keys_stay_1_to_6 lines :
  forallb line_safe lines = true ->
  exists st,
    run initial_state lines = Ok st
    /\ forall i, is_Some (book_pages st !! i) <-> (1 <= i <= 6)%Z.
Proof.
  intros Hsafe.
  destruct (run_dom lines initial_state has_books_fresh eq_refl eq_refl Hsafe)
    as (st & Hrun & Hd).
  exists st. split; [exact Hrun|]. intros i.
  rewrite <- elem_of_dom, Hd. apply dom_fresh_pages.
Qed.

Lemma book_keys_stay_1_to_6_witness :
  exists st,
    run initial_state [tabbed "Apples" "7:12, 0:3, 2:20,"] = Ok st
    /\ forall i, is_Some (book_pages st !! i) <-> (1 <= i <= 6)%Z.
Proof.
  apply (book_keys_stay_1_to_6 [tabbed "Apples" "7:12, 0:3, 2:20,"]).
  vm_compute. reflexivity.
Defined.

(** ** Lines that end with a comma *)

Lemma ends_with_comma_content raw :
  ends_with_comma raw = true ->
  blank raw = false /\ is_divider (strip raw) = false.
Proof.
  unfold ends_with_comma, blank. intros H.
  destruct (strip raw) as [|c s] eqn:E; [discriminate|].
  split; [reflexivity|].
  destruct (is_divider (String c s)) eqn:Hdiv; [|reflexivity].
  destruct (is_divider_char _ Hdiv) as (a & [= -> ->] & Ha).
  cbn [endswith String.eqb] in H.
  destruct (Ascii.eqb_spec a ","%char) as [->|Hne]; [discriminate|].
  discriminate.
Qed.

Lemma state_eta_full st :
  {| data := data st; current_subject := current_subject st;
     book_pages := book_pages st |} = st.
Proof. now destruct st. Qed.

Lemma comma_line_step st raw :
  has_books (book_pages st) = true ->
  ends_with_comma raw = true ->
  line_safe raw = true ->
  exists pages',
    process_line st raw =
      Ok {| data := data st; current_subject := current_subject st;
            book_pages := pages' |}
    /\ has_books pages' = true.
Proof.
  intros H Hcomma Hsafe. unfold line_safe, line_tokens in Hsafe.
  destruct (ends_with_comma_content raw Hcomma) as [Hblank Hdiv].
  unfold blank in Hblank. apply negb_false_iff in Hblank.
  unfold ends_with_comma in Hcomma.
  unfold process_line. rewrite Hblank, Hdiv. cbn [negb].
  unfold content_line. cbv zeta.
  destruct (1 <? length (split_parts (strip raw)))%nat eqn:Hlen.
  - apply Nat.ltb_lt in Hlen.
    destruct (split_parts (strip raw)) as [|p0 [|p1 tl]]; cbn in Hlen; try lia.
    unfold capture_subject. rewrite Hcomma. cbn [negb]. rewrite andb_false_r.
    cbn [bind]. unfold collect_refs. rewrite list_get_1. cbn [bind].
    destruct (foldM_add_ref_Ok (book_pages st) (split_commas (rstrip_commas p1))
                H Hsafe) as (pages' & -> & Hp).
    cbn [bind]. unfold flush_check. rewrite Hcomma. cbn [negb andb]. eauto.
  - cbn [bind]. unfold flush_check. rewrite Hcomma. cbn [negb andb].
    exists (book_pages st). now rewrite state_eta_full.
Qed.

(** X8.  A line that ends with a comma never emits a row and never
    touches the subject, whatever the state it finds: all it can do is
    store pages, or raise [ValueError] when one of its references has a
    book number too long for [int]. *)
Theorem comma_line_emits_nothing st raw :
  has_books (book_pages st) = true ->
  ends_with_comma raw = true ->
  (line_safe raw = true ->
   exists pages',
     process_line st raw =
       Ok {| data := data st; current_subject := current_subject st;
             book_pages := pages' |}
     /\ has_books pages' = true)
  /\ (line_safe raw = false -> process_line st raw = Raise ValueError).
Proof.
  intros H Hcomma. split.
  - now apply comma_line_step.
  - now apply process_line_unsafe.
Qed.

Lemma comma_line_emits_nothing_witness :
  exists pages',
    process_line
      {| data := [["A"; ""; ""; ""; ""; ""; ""]]; current_subject := "Apples";
         book_pages := fresh_pages |}
      (tabbed "Apples" "1:10, 2:20,")
    = Ok {| data := [["A"; ""; ""; ""; ""; ""; ""]]; current_subject := "Apples";
            book_pages := pages' |}
    /\ has_books pages' = true.
Proof.
  apply (comma_line_emits_nothing
           {| data := [["A"; ""; ""; ""; ""; ""; ""]]; current_subject := "Apples";
              book_pages := fresh_pages |}
           (tabbed "Apples" "1:10, 2:20,")); vm_compute; reflexivity.
Defined.

Lemma line_tokens_short raw :
  (length (split_parts (strip raw)) <= 1)%nat -> line_tokens raw = [].
Proof.
  unfold line_tokens. destruct (split_parts (strip raw)) as [|p0 [|p1 tl]];
    cbn [length]; (reflexivity || lia).
Qed.

(** Lines ending with a comma only store pages. *)
Lemma run_stored stored rows pages :
  has_books pages = true ->
  Forall (fun l => ends_with_comma l = true) stored ->
  forallb line_safe stored = true ->
  exists pages',
    run {| data := rows; current_subject := EmptyString; book_pages := pages |}
        stored
    = Ok {| data := rows; current_subject := EmptyString; book_pages := pages' |}
    /\ has_books pages' = true
    /\ forall b, pages_of pages' b =
                 pages_of pages b
                 ++ pages_for b (List.concat (List.map line_tokens stored)).
Proof.
  intros H Hall. revert pages H.
  induction Hall as [|l stored Hl _ IH]; intros pages H Hsafe.
  - exists pages. split; [reflexivity|]. split; [exact H|].
    intros b. unfold pages_for. cbn. now rewrite app_nil_r.
  - cbn [forallb] in Hsafe. apply andb_true_iff in Hsafe as [Hsl Hsafe].
    destruct (comma_line_step
                {| data := rows; current_subject := EmptyString;
                   book_pages := pages |} l H Hl Hsl) as (pages1 & Hp & Hb).
    cbn [data current_subject] in Hp.
    destruct (IH pages1 Hb Hsafe) as (pages2 & Hrun & Hb2 & Hpages).
    exists pages2. unfold run in *. cbn [foldM]. rewrite Hp. cbn [bind].
    split; [exact Hrun|]. split; [exact Hb2|].
    intros b. rewrite Hpages. cbn [List.map List.concat].
    rewrite pages_for_app, app_assoc. f_equal.
    destruct (process_line_step
                {| data := rows; current_subject := EmptyString;
                   book_pages := pages |} l H eq_refl Hsl)
      as (kind & extra & pages' & Hp' & _ & Hk).
    rewrite Hp in Hp'. injection Hp' as _ <-.
    destruct (ends_with_comma_content l Hl) as [Hblank Hdiv].
    destruct kind.
    + destruct Hk as (_ & -> & [Hk|Hk]); [congruence|].
      rewrite (line_tokens_short l Hk). unfold pages_for. cbn.
      now rewrite app_nil_r.
    + destruct Hk as (_ & _ & Hk). congruence.
    + destruct Hk as (_ & _ & p0 & p1 & tl & Hparts & Hfold).
      unfold line_safe in Hsl.
      rewrite (line_tokens_parts l _ _ _ Hparts) in Hsl |- *.
      destruct (foldM_add_ref_pages (split_commas (rstrip_commas p1)) pages H Hsl)
        as (pages3 & Hfold3 & _ & _ & Hp3).
      cbn [book_pages] in Hfold. rewrite Hfold in Hfold3.
      injection Hfold3 as <-. apply Hp3.
    + destruct Hk as (_ & Hk & _). congruence.
Qed.

(** X9.  Pages stored by lines that end with a comma wait for the next
    line that has two parts and no final comma: that line emits one
    row, whose subject is its own trimmed first part and whose book
    fields hold the pages of all the waiting tokens followed by its
    own, in their order.  That is the result unless one of the
    references has a book number too long for [int], in which case
    [parse_index] raises [ValueError]. *)
Theorem pages_wait_for_the_next_completed_line stored raw p0 p1 tl :
  Forall (fun l => ends_with_comma l = true) stored ->
  ends_with_comma raw = false ->
  split_parts (strip raw) = p0 :: p1 :: tl ->
  parse_index (stored ++ [raw]) =
    if forallb line_safe (stored ++ [raw])
    then Ok [strip p0
             :: fields_for (List.concat (List.map line_tokens stored)
                            ++ line_tokens raw)]
    else Raise ValueError.
Proof.
  intros Hstored Hcomma Hparts.
  destruct (forallb line_safe (stored ++ [raw])) eqn:Hsafe;
    [|now apply parse_index_unsafe].
  rewrite forallb_app in Hsafe. apply andb_true_iff in Hsafe as [Hs1 Hs2].
  cbn [forallb] in Hs2. rewrite andb_true_r in Hs2.
  destruct (run_stored stored [] fresh_pages has_books_fresh Hstored Hs1)
    as (pages1 & Hrun & Hb & Hpages).
  unfold parse_index. rewrite run_app.
  change initial_state
    with {| data := []; current_subject := EmptyString; book_pages := fresh_pages |}.
  rewrite Hrun. cbn [bind]. unfold run. cbn [foldM].
  destruct (process_line_step
              {| data := []; current_subject := EmptyString;
                 book_pages := pages1 |} raw Hb eq_refl Hs2)
    as (kind & extra & pages' & Hp & _ & Hk).
  rewrite Hp. cbn [bind]. rewrite finish_no_subject. cbn [data app].
  destruct kind.
  - destruct Hk as (_ & _ & [Hk|Hk]).
    + unfold blank in Hk. apply negb_true_iff, truthy_false in Hk.
      rewrite Hk in Hparts. discriminate.
    + rewrite Hparts in Hk. cbn in Hk. lia.
  - destruct Hk as (_ & _ & Hk).
    rewrite (is_divider_one_part _ raw eq_refl Hk) in Hparts. discriminate.
  - destruct Hk as (_ & Hk & _). congruence.
  - destruct Hk as (_ & _ & _ & _ & q0 & q1 & tl' & pages2 & Hparts' & _ & Hfold & ->).
    rewrite Hparts in Hparts'. injection Hparts' as <- <- <-.
    do 2 f_equal. f_equal. apply book_fields_pages. intros b.
    unfold line_safe in Hs2. rewrite (line_tokens_parts raw _ _ _ Hparts) in Hs2.
    destruct (foldM_add_ref_pages (split_commas (rstrip_commas p1)) pages1 Hb Hs2)
      as (pages3 & Hfold3 & _ & _ & Hp3).
    cbn [book_pages] in Hfold. rewrite Hfold in Hfold3. injection Hfold3 as <-.
    rewrite Hp3, Hpages, pages_of_fresh, pages_for_app. cbn [app].
    now rewrite (line_tokens_parts raw _ _ _ Hparts).
Qed.

Lemma pages_wait_for_the_next_completed_line_witness :
  parse_index ([tabbed "Apples" "1:10, 2:20,"; "3:30, 3:31,"]
               ++ [tabbed "Bananas" "2:9"]) =
    Ok ["Bananas"
        :: fields_for
             (List.concat (List.map line_tokens
                             [tabbed "Apples" "1:10, 2:20,"; "3:30, 3:31,"])
              ++ line_tokens (tabbed "Bananas" "2:9"))].
Proof.
  apply (pages_wait_for_the_next_completed_line
           [tabbed "Apples" "1:10, 2:20,"; "3:30, 3:31,"]
           (tabbed "Bananas" "2:9") "Bananas" "2:9" []).
  - repeat constructor.
  - reflexivity.
  - reflexivity.
Defined.

(** ** Points where the parser starts afresh *)

Lemma reset_state_shift rows : reset_state rows = shift rows initial_state.
Proof. unfold reset_state, shift. cbn. now rewrite app_nil_r. Qed.

Lemma forallb_dec {A : Type} (f : A -> bool) l :
  forallb f l = true \/ forallb f l = false.
Proof. destruct (forallb f l); auto. Qed.

(** X10.  A divider line cuts the input in two independent parts: the
    rows of the whole are the rows of what precedes the divider, the
    divider row, and the rows of what follows it, each part parsed on
    its own; and the whole raises exactly when one of the parts does. *)
Theorem divider_separates_sections before raw after :
  is_divider (strip raw) = true ->
  parse_index (before ++ raw :: after) =
    (rows1 <- parse_index before ;;
     rows2 <- parse_index after ;;
     Ok (rows1 ++ divider_row (strip raw) :: rows2)).
Proof.
  intros Hdiv.
  destruct (forallb_dec line_safe before) as [Hs1|Hs1].
  2:{ rewrite (parse_index_unsafe before Hs1). unfold parse_index.
      rewrite run_app.
      now rewrite (run_unsafe before initial_state has_books_fresh eq_refl Hs1). }
  destruct (parse_index_run before Hs1) as (rows1 & pages1 & Hrun1 & Hp1 & Hb1 & _).
  rewrite Hp1. cbn [bind].
  unfold parse_index at 1. rewrite run_app, Hrun1. cbn [bind].
  unfold run. cbn [foldM].
  assert (process_line
            {| data := rows1; current_subject := EmptyString;
               book_pages := pages1 |} raw
          = Ok (reset_state (rows1 ++ [divider_row (strip raw)]))) as ->.
  { unfold process_line. rewrite Hdiv.
    destruct (is_divider_char _ Hdiv) as (c & Hc & _). rewrite Hc. cbn [truthy negb].
    rewrite <- Hc. now rewrite divider_line_Ok by exact Hb1. }
  cbn [bind]. fold (run (reset_state (rows1 ++ [divider_row (strip raw)])) after).
  rewrite reset_state_shift, run_shift.
  destruct (forallb_dec line_safe after) as [Hs2|Hs2].
  - destruct (parse_index_run after Hs2) as (rows2 & pages2 & Hrun2 & Hp2 & _).
    rewrite Hp2, Hrun2. unfold rmap. cbn [bind]. unfold shift.
    cbn [bind data current_subject book_pages].
    rewrite finish_no_subject. now rewrite <- app_assoc.
  - rewrite (parse_index_unsafe after Hs2).
    now rewrite (run_unsafe after initial_state has_books_fresh eq_refl Hs2).
Qed.

Lemma divider_separates_sections_witness :
  parse_index ([tabbed "x" "1:5,"] ++ " B " :: [tabbed "Bananas" "2:9"]) =
    (rows1 <- parse_index [tabbed "x" "1:5,"] ;;
     rows2 <- parse_index [tabbed "Bananas" "2:9"] ;;
     Ok (rows1 ++ divider_row (strip " B ") :: rows2)).
Proof.
  apply (divider_separates_sections
           [tabbed "x" "1:5,"] " B " [tabbed "Bananas" "2:9"]).
  reflexivity.
Defined.

(** A line without a final comma takes a reset state to a reset state,
    unless it raises. *)
Lemma process_line_reset raw rows :
  ends_with_comma raw = false ->
  process_line (reset_state rows) raw =
    rmap (fun extra => reset_state (rows ++ extra)) (parse_index [raw]).
Proof.
  intros Hcomma. destruct (line_safe raw) eqn:Hsafe.
  - destruct (process_line_step initial_state raw has_books_fresh eq_refl Hsafe)
      as (kind & extra & pages' & Hp & _ & Hk).
    assert (pages' = fresh_pages) as ->.
    { destruct kind.
      - now destruct Hk as (_ & -> & _).
      - now destruct Hk as (_ & -> & _).
      - destruct Hk as (_ & Hk & _). congruence.
      - now destruct Hk as (-> & _). }
    cbn [data initial_state app] in Hp.
    assert (parse_index [raw] = Ok extra) as ->.
    { unfold parse_index, run. cbn [foldM]. rewrite Hp. reflexivity. }
    rewrite reset_state_shift, process_line_shift, Hp. reflexivity.
  - rewrite (parse_index_unsafe [raw]) by (cbn [forallb]; now rewrite Hsafe).
    apply process_line_unsafe; [apply has_books_fresh | exact Hsafe].
Qed.

Lemma run_comma_free lines :
  Forall (fun l => ends_with_comma l = false) lines ->
  forall rows,
    run (reset_state rows) lines =
      rmap (fun rowss => reset_state (rows ++ List.concat rowss))
           (comprehension (fun l => parse_index [l]) lines).
Proof.
  induction 1 as [|l lines Hl _ IH]; intros rows.
  - cbn. now rewrite app_nil_r.
  - unfold run in *. cbn [foldM comprehension].
    rewrite (process_line_reset l rows Hl).
    destruct (parse_index [l]) as [extra|e]; [|reflexivity].
    cbn [rmap bind]. rewrite IH.
    destruct (comprehension (fun l0 => parse_index [l0]) lines) as [rowss|e];
      [|reflexivity].
    cbn [rmap bind List.concat]. now rewrite app_assoc.
Qed.

(** X11.  When no line ends with a comma, the lines are converted
    independently of each other: the rows of the input are the rows of
    its lines, each parsed alone, put end to end, and the state after
    the input is the fully reset one; the input raises exactly when one
    of its lines, parsed alone, does. *)
Theorem comma_free_lines_are_independent lines :
  Forall (fun l => ends_with_comma l = false) lines ->
  run initial_state lines =
    rmap (fun rowss => reset_state (List.concat rowss))
         (comprehension (fun l => parse_index [l]) lines)
  /\ parse_index lines =
       rmap (@List.concat (list string))
            (comprehension (fun l => parse_index [l]) lines).
Proof.
  intros Hall. pose proof (run_comma_free lines Hall []) as Hrun.
  rewrite <- initial_state_reset in Hrun. cbn [app] in Hrun.
  split; [exact Hrun|].
  unfold parse_index at 1. rewrite Hrun.
  destruct (comprehension (fun l => parse_index [l]) lines); reflexivity.
Qed.

Lemma comma_free_lines_are_independent_witness :
  run initial_state
      ["A"; tabbed "Apples" "1:5,1:6"; "stray"; tabbed "Bananas" "2:9"]
  = rmap (fun rowss => reset_state (List.concat rowss))
         (comprehension (fun l => parse_index [l])
            ["A"; tabbed "Apples" "1:5,1:6"; "stray"; tabbed "Bananas" "2:9"])
  /\ parse_index ["A"; tabbed "Apples" "1:5,1:6"; "stray"; tabbed "Bananas" "2:9"]
     = rmap (@List.concat (list string))
            (comprehension (fun l => parse_index [l])
               ["A"; tabbed "Apples" "1:5,1:6"; "stray"; tabbed "Bananas" "2:9"]).
Proof.
  apply (comma_free_lines_are_independent
           ["A"; tabbed "Apples" "1:5,1:6"; "stray"; tabbed "Bananas" "2:9"]).
  repeat constructor.
Defined.

(* ================================================================= *)
(** * Properties of [extract_text] and of its callers *)

Lemma splitlines_unfold c s :
  splitlines (String c s) =
    if is_linebreak c then
      match s with
      | String d s'' =>
          if Ascii.eqb c CR && Ascii.eqb d LF
          then EmptyString :: splitlines s''
          else EmptyString :: splitlines s
      | EmptyString => [EmptyString]
      end
    else
      match splitlines s with
      | h :: t => String c h :: t
      | [] => [String c EmptyString]
      end.
Proof. reflexivity. Qed.

Lemma splitlines_one_line_bounded n s :
  (String.length s <= n)%nat -> Forall (fun l => one_line l = true) (splitlines s).
Proof.
  revert s. induction n as [|n IH]; intros s Hlen.
  - destruct s; [constructor | cbn in Hlen; lia].
  - destruct s as [|c s]; [constructor|].
    cbn [String.length] in Hlen. rewrite splitlines_unfold.
    destruct (is_linebreak c) eqn:Hc.
    + destruct s as [|d s''].
      * repeat constructor.
      * cbn [String.length] in Hlen.
        destruct (Ascii.eqb c CR && Ascii.eqb d LF);
          (constructor; [reflexivity|]); apply IH; cbn [String.length]; lia.
    + assert (Forall (fun l => one_line l = true) (splitlines s)) as Hs
        by (apply IH; lia).
      destruct (splitlines s) as [|h t].
      * repeat constructor. unfold one_line. cbn [str_all]. now rewrite Hc.
      * inversion Hs as [|? ? Hh Ht]; subst. constructor; [|exact Ht].
        unfold one_line in *. cbn [str_all]. now rewrite Hc.
Qed.

Lemma splitlines_nil s : splitlines s = [] <-> s = EmptyString.
Proof.
  split; [|now intros ->].
  destruct s as [|c s]; [reflexivity|]. rewrite splitlines_unfold.
  destruct (is_linebreak c).
  - destruct s as [|d s'']; [discriminate|].
    destruct (Ascii.eqb c CR && Ascii.eqb d LF); discriminate.
  - destruct (splitlines s); discriminate.
Qed.

(** The index [1] of line 81 (85, 89) is never out of range: it is
    guarded by the test that the marker occurs. *)
Lemma after_marker_Ok full_text :
  after_marker full_text =
    Ok (match partition_first marker full_text with
        | Some (_, post) => strip post
        | None => EmptyString
        end).
Proof.
  unfold after_marker, str_in, split1.
  destruct (partition_first marker full_text) as [[pre post]|]; reflexivity.
Qed.

Lemma supported_dec ext : supported ext \/ ~ supported ext.
Proof.
  unfold supported.
  destruct (String.eqb_spec ext "docx"); [auto|].
  destruct (String.eqb_spec ext "pdf"); [auto|].
  destruct (String.eqb_spec ext "txt"); [auto|].
  right. intuition.
Qed.

Lemma extract_text_supported ext full_text :
  supported ext ->
  extract_text ext full_text =
    Ok (splitlines (match partition_first marker full_text with
                    | Some (_, post) => strip post
                    | None => EmptyString
                    end)).
Proof.
  intros Hext. unfold extract_text.
  destruct Hext as [->|[->| ->]]; cbn [String.eqb Ascii.eqb Bool.eqb];
    now rewrite after_marker_Ok.
Qed.

Lemma extract_text_unsupported ext full_text :
  ~ supported ext -> extract_text ext full_text = Ok [].
Proof.
  intros Hext. unfold extract_text, supported in *.
  destruct (String.eqb_spec ext "docx"); [tauto|].
  destruct (String.eqb_spec ext "pdf"); [tauto|].
  destruct (String.eqb_spec ext "txt"); [tauto|].
  reflexivity.
Qed.

Lemma extract_text_Ok ext full_text :
  exists lines,
    extract_text ext full_text = Ok lines
    /\ Forall (fun l => one_line l = true) lines.
Proof.
  destruct (supported_dec ext) as [Hext|Hext].
  - rewrite (extract_text_supported ext full_text Hext).
    eexists. split; [reflexivity|].
    eapply splitlines_one_line_bounded. reflexivity.
  - rewrite (extract_text_unsupported ext full_text Hext).
    exists []. split; [reflexivity | constructor].
Qed.

(** X12.  Whatever text the reader of the file delivers, what
    [extract_text] does with it (the test for the marker, the split,
    the index [1], the trimming and [splitlines]) raises nothing, the
    index [1] being guarded by the test; and none of the lines returned
    contains a line boundary: each is a single line for the parser.
    Reading the file itself, which can fail, is outside the model. *)
Theorem extract_text_returns_single_lines ext full_text :
  exists lines,
    extract_text ext full_text = Ok lines
    /\ Forall (fun l => one_line l = true) lines.
Proof. apply extract_text_Ok. Qed.

Lemma append_same_length a a' x x' :
  a +:+ x = a' +:+ x' -> String.length a = String.length a' ->
  a = a' /\ x = x'.
Proof.
  revert a'. induction a as [|c a IH]; intros [|c' a'] H Hlen;
    try discriminate.
  - auto.
  - cbn [String.append] in H. injection H as -> H. injection Hlen as Hlen.
    destruct (IH a' H Hlen) as [-> ->]. auto.
Qed.

Lemma first_occurrence_unique sub s pre post pre' post' :
  first_occurrence sub s pre post -> first_occurrence sub s pre' post' ->
  pre = pre' /\ post = post'.
Proof.
  intros [H1 L1] [H2 L2].
  pose proof (L1 _ _ H2). pose proof (L2 _ _ H1).
  rewrite H1 in H2.
  destruct (append_same_length _ _ _ _ H2) as [-> Hrest]; [lia|].
  split; [reflexivity|].
  destruct (append_same_length _ _ _ _ Hrest eq_refl) as [_ ->]. reflexivity.
Qed.

Lemma partition_first_occurrence sub s pre post :
  partition_first sub s = Some (pre, post) -> first_occurrence sub s pre post.
Proof. apply partition_first_Some. Qed.

(** X13.  [extract_text] returns no line in exactly three cases: the
    file is not a docx, pdf or txt file; the marker does not occur in
    its text; or nothing but whitespace follows the first occurrence of
    the marker. *)
Theorem extract_text_empty_iff ext full_text :
  extract_text ext full_text = Ok []
  <-> (~ supported ext
       \/ ~ occurs marker full_text
       \/ exists pre post,
            first_occurrence marker full_text pre post
            /\ str_all isspace post = true).
Proof.
  destruct (supported_dec ext) as [Hext|Hext].
  2:{ rewrite (extract_text_unsupported ext full_text Hext). tauto. }
  rewrite (extract_text_supported ext full_text Hext).
  destruct (partition_first marker full_text) as [[pre post]|] eqn:P.
  - pose proof (partition_first_occurrence _ _ _ _ P) as Hfirst.
    assert (occurs marker full_text) as Hocc
      by (exists pre, post; apply Hfirst).
    split.
    + intros [= H]. apply splitlines_nil, strip_empty in H.
      right. right. eauto.
    + intros [H|[H|(pre' & post' & Hfirst' & Hsp)]]; try tauto.
      destruct (first_occurrence_unique _ _ _ _ _ _ Hfirst Hfirst') as [_ ->].
      apply strip_empty in Hsp. now rewrite Hsp.
  - split; [|reflexivity]. intros _. right. left.
    now apply partition_first_None.
Qed.

(** X14.  Once the text of the file has been read, the callers'
    sequence [extract_text], [if not lines: raise ValueError],
    [parse_index] returns rows exactly when [extract_text] gave at
    least one line and no reference in those lines has a book number
    too long for [int]; the rows are then those of [parse_index], all
    well formed.  In every other case it raises [ValueError]: the one
    of "No index data found" when there is no line, the one of [int]
    otherwise. *)
Theorem convert_file_outcome ext full_text :
  exists lines,
    extract_text ext full_text = Ok lines
    /\ match convert_file ext full_text with
       | Ok rows =>
           lines <> []
           /\ forallb line_safe lines = true
           /\ parse_index lines = Ok rows
           /\ Forall row_ok rows
       | Raise e =>
           e = ValueError
           /\ (lines = [] \/ forallb line_safe lines = false)
       end.
Proof.
  unfold convert_file.
  destruct (extract_text_Ok ext full_text) as (lines & Hlines & _).
  exists lines. split; [exact Hlines|].
  rewrite Hlines. cbn [bind]. destruct lines as [|l lines]; [auto|].
  destruct (forallb_dec line_safe (l :: lines)) as [Hsafe|Hsafe].
  - destruct (parse_index_run (l :: lines) Hsafe)
      as (rows & _ & _ & Hp & _ & Hok & _).
    rewrite Hp. split_all; auto.
  - rewrite (parse_index_unsafe (l :: lines) Hsafe). auto.
Qed.

(* ================================================================= *)
(** * Properties of [get_file_choice] *)

Lemma list_get_lookup {A : Type} (l : list A) (i : nat) :
  (i < length l)%nat -> exists x, l !! i = Some x /\ list_get l i = Ok x.
Proof.
  intros Hi. destruct (lookup_lt_is_Some_2 l i Hi) as [x Hx].
  exists x. unfold list_get. now rewrite Hx.
Qed.

Lemma py_index_front {A : Type} (l : list A) (i : Z) :
  (0 <= i < Z.of_nat (length l))%Z ->
  exists x, l !! Z.to_nat i = Some x /\ py_index l i = Ok x.
Proof.
  intros Hi. unfold py_index.
  destruct (Z.leb_spec 0 i); [|lia].
  apply list_get_lookup. lia.
Qed.



Lemma get_file_choice_number files choice as_int :
  files <> [] -> choice <> "4" -> choice <> "0" ->
  get_file_choice files choice as_int =
    match (file_num <- as_int ;;
           f <- py_index files (file_num - 1) ;;
           Ok ([f],
               if ((1 <=? file_num) && (file_num <=? Z.of_nat (length files)))%Z
               then Some false else None)) with
    | Ok (chosen, flag) => Return (Some chosen) flag []
    | Raise ValueError => Return None None ["Invalid file selection"]
    | Raise IndexError => Return None None ["Invalid file selection"]
    | Raise e => Uncaught e
    end.
Proof.
  intros Hfiles H4 H0. unfold get_file_choice.
  destruct files as [|f files]; [congruence|].
  apply String.eqb_neq in H4, H0. now rewrite H4, H0.
Qed.

(** X15.  When files were found and the line typed is neither "4" nor
    "0" and reads as a number [k] between 1 and the number of files,
    [get_file_choice] returns the [k]-th file alone with the flag
    [False], and the main loop converts that one file. *)
Theorem numbered_choice_selects_that_file files choice k :
  files <> [] -> choice <> "4" -> choice <> "0" ->
  (1 <= k <= Z.of_nat (length files))%Z ->
  exists f,
    files !! Z.to_nat (k - 1) = Some f
    /\ get_file_choice files choice (Ok k) = Return (Some [f]) (Some false) []
    /\ files_to_convert (Some [f]) (Some false) = Ok [f].
Proof.
  intros Hfiles H4 H0 Hk.
  destruct (py_index_front files (k - 1)) as (f & Hf & Hidx); [lia|].
  exists f. split; [exact Hf|]. split; [|reflexivity].
  rewrite (get_file_choice_number files choice (Ok k) Hfiles H4 H0).
  cbn [bind]. rewrite Hidx. cbn [bind].
  destruct (Z.leb_spec 1 k); [|lia].
  destruct (Z.leb_spec k (Z.of_nat (length files))); [|lia].
  reflexivity.
Qed.

Lemma numbered_choice_selects_that_file_witness :
  exists f,
    ["a.txt"; "b.txt"; "c.txt"] !! Z.to_nat (2 - 1) = Some f
    /\ get_file_choice ["a.txt"; "b.txt"; "c.txt"] "2" (Ok 2%Z)
       = Return (Some [f]) (Some false) []
    /\ files_to_convert (Some [f]) (Some false) = Ok [f].
Proof.
  apply (numbered_choice_selects_that_file ["a.txt"; "b.txt"; "c.txt"] "2" 2%Z);
    (discriminate || (cbn; lia)).
Defined.



(* ================================================================= *)
(** * Properties of the retries *)



Lemma extract_text_empty_iff_witness :
  extract_text "txt" ("Cover" +:+ marker +:+ String LF "  ") = Ok [].
Proof.
  apply (extract_text_empty_iff "txt" ("Cover" +:+ marker +:+ String LF "  ")).
  right. right. exists "Cover", (String LF "  ").
  split; [|reflexivity].
  apply partition_first_occurrence. reflexivity.
Defined.

(* ================================================================= *)
(** * [parse_index] and the store *)

(** ** New objects *)

Lemma fresh_place (h : heap) : h !! fresh (dom h) = None.
Proof. apply not_elem_of_dom, is_fresh. Qed.

Lemma new_object_spec o (h : heap) :
  InPlace.new_object o h = (<[fresh (dom h) := o]> h, Returns (fresh (dom h))).
Proof. reflexivity. Qed.

Lemma bind_returns {A B : Type} (m : heap -> heap * outcome A)
    (k : A -> heap -> heap * outcome B) (h h' : heap) a :
  m h = (h', Returns a) -> InPlace.bind m k h = k a h'.
Proof. unfold InPlace.bind. now intros ->. Qed.

Lemma bind_raises {A B : Type} (m : heap -> heap * outcome A)
    (k : A -> heap -> heap * outcome B) (h h' : heap) e :
  m h = (h', Raises e) -> InPlace.bind m k h = (h', Raises e).
Proof. unfold InPlace.bind. now intros ->. Qed.

Lemma subseteq_none (h0 h : heap) l : h0 ⊆ h -> h !! l = None -> h0 !! l = None.
Proof. intros Hsub Hl. eapply lookup_weaken_None; eauto. Qed.

Lemma new_lists_spec keys (items : gmap Z positive) (h : heap) :
  unshared items ->
  (forall i l, items !! i = Some l -> is_Some (h !! l)) ->
  exists (h' : heap) items',
    InPlace.new_lists keys items h = (h', Returns items')
    /\ h ⊆ h'
    /\ unshared items'
    /\ (forall i l, items' !! i = Some l ->
          (items !! i = Some l /\ ~ In i keys)
          \/ (In i keys /\ h' !! l = Some (StrList []) /\ h !! l = None))
    /\ (forall i, is_Some (items !! i) \/ In i keys -> is_Some (items' !! i)).
Proof.
  revert items h. induction keys as [|k keys IH]; intros items h Hinj Hran.
  - exists h, items. split; [reflexivity|]. split; [reflexivity|].
    split; [exact Hinj|]. split.
    + intros i l Hl. left. split; [exact Hl | intros []].
    + intros i [Hi|[]]. exact Hi.
  - cbn [InPlace.new_lists].
    rewrite (bind_returns _ _ _ _ _ (new_object_spec (StrList []) h)).
    pose proof (fresh_place h) as Hfresh.
    set (l0 := fresh (dom h)) in *.
    destruct (IH (<[k := l0]> items) (<[l0 := StrList []]> h))
      as (h' & items' & Hrun & Hsub & Hinj' & Hitems & Hkeys).
    + intros i j l Hi Hj.
      destruct (decide (k = i)) as [<-|Hki]; destruct (decide (k = j)) as [<-|Hkj];
        try reflexivity.
      * rewrite lookup_insert_eq in Hi. rewrite lookup_insert_ne in Hj by done.
        injection Hi as <-. destruct (Hran _ _ Hj) as [o Ho]. congruence.
      * rewrite lookup_insert_eq in Hj. rewrite lookup_insert_ne in Hi by done.
        injection Hj as <-. destruct (Hran _ _ Hi) as [o Ho]. congruence.
      * rewrite lookup_insert_ne in Hi, Hj by done. eapply Hinj; eauto.
    + intros i l Hl. destruct (decide (k = i)) as [<-|Hki].
      * rewrite lookup_insert_eq in Hl. injection Hl as <-.
        rewrite lookup_insert_eq. eauto.
      * rewrite lookup_insert_ne in Hl by done.
        destruct (Hran _ _ Hl) as [o Ho].
        destruct (decide (l0 = l)) as [<-|Hne]; [congruence|].
        rewrite lookup_insert_ne by done. eauto.
    + exists h', items'. split; [exact Hrun|].
      assert (h ⊆ <[l0 := StrList []]> h) as Hsub0 by now apply insert_subseteq.
      split; [now transitivity (<[l0 := StrList []]> h)|].
      split; [exact Hinj'|]. split.
      * intros i l Hl. destruct (Hitems i l Hl) as [[Hin Hnk]|(Hin & Hl' & Hnone)].
        -- destruct (decide (k = i)) as [<-|Hki].
           ++ rewrite lookup_insert_eq in Hin. injection Hin as <-.
              right. split; [now left|]. split; [|exact Hfresh].
              eapply lookup_weaken; [|exact Hsub]. apply lookup_insert_eq.
           ++ rewrite lookup_insert_ne in Hin by done.
              left. split; [exact Hin|]. intros [?|?]; [congruence|tauto].
        -- right. split; [now right|]. split; [exact Hl'|].
           eapply subseteq_none; eauto.
      * intros i Hi. apply Hkeys.
        destruct (decide (k = i)) as [<-|Hki].
        -- left. rewrite lookup_insert_eq. eauto.
        -- rewrite lookup_insert_ne by done.
           destruct Hi as [Hi|[Hi|Hi]]; [now left | congruence | now right].
Qed.

(** ** The rows in the store *)

Lemma rows_inv_weaken (h0 h h' : heap) place rows :
  rows_inv h0 h place rows -> h ⊆ h' -> rows_inv h0 h' place rows.
Proof.
  intros (places & Hp & H0 & Hrows) Hsub. exists places.
  split; [eapply lookup_weaken; eauto|]. split; [exact H0|].
  eapply Forall2_impl; [exact Hrows|].
  intros l row [Hl Hl0]. split; [eapply lookup_weaken; eauto | exact Hl0].
Qed.

Lemma rows_inv_places (h0 h : heap) place rows places :
  rows_inv h0 h place rows -> h !! place = Some (RowList places) ->
  Forall (fun l => is_Some (h !! l) /\ h0 !! l = None) places.
Proof.
  intros (places' & Hp & _ & Hrows) Hp'. rewrite Hp in Hp'. injection Hp' as <-.
  clear Hp. induction Hrows as [|l row ps rs Hl _ IH]; constructor; [|exact IH].
  destruct Hl. eauto.
Qed.

(** What the list holds when read back. *)
Lemma rows_inv_rows_at (h0 h : heap) place rows :
  rows_inv h0 h place rows ->
  rows_at h place = Some rows
  /\ h0 !! place = None
  /\ Forall (fun l => h0 !! l = None) (row_places h place).
Proof.
  intros (places & Hp & H0 & Hrows). unfold rows_at, row_places. rewrite Hp.
  split; [|split; [exact H0|]].
  - clear Hp. induction Hrows as [|l row ps rs Hl _ IH]; [reflexivity|].
    destruct Hl as [Hl _]. cbn. rewrite Hl. cbn. now rewrite IH.
  - clear Hp. induction Hrows as [|l row ps rs Hl _ IH]; constructor; [|exact IH].
    now destruct Hl.
Qed.

(** A new row at the end of the list. *)
Lemma rows_inv_emit (h0 h : heap) place rows row :
  h0 ⊆ h ->
  rows_inv h0 h place rows ->
  exists h2 : heap,
    InPlace.append_row place (fresh (dom h)) (<[fresh (dom h) := StrList row]> h)
    = (h2, Returns tt)
    /\ h0 ⊆ h2
    /\ rows_inv h0 h2 place (rows ++ [row])
    /\ forall x, is_Some (h !! x) -> x <> place -> h2 !! x = h !! x.
Proof.
  intros Hsub (places & Hp & H0 & Hrows).
  pose proof (fresh_place h) as Hfresh. set (l := fresh (dom h)) in *.
  assert (l <> place) as Hlp by (intros ->; congruence).
  unfold InPlace.append_row. rewrite lookup_insert_ne by done. rewrite Hp.
  eexists. split; [reflexivity|].
  assert (h0 !! l = None) as Hl0 by (eapply subseteq_none; eauto).
  split; [|split].
  - apply insert_subseteq_r; [exact H0|]. now apply insert_subseteq_r.
  - exists (places ++ [l]). split; [apply lookup_insert_eq|]. split; [exact H0|].
    apply Forall2_app.
    + eapply Forall2_impl; [exact Hrows|]. intros x r [Hx Hx0].
      split; [|exact Hx0].
      rewrite !lookup_insert_ne; [exact Hx| |]; intros <-; congruence.
    + constructor; [|constructor]. split; [|exact Hl0].
      rewrite lookup_insert_ne by done. apply lookup_insert_eq.
  - intros x [o Hx] Hxp. rewrite !lookup_insert_ne; [reflexivity| |done].
    intros <-. congruence.
Qed.

Lemma comprehension_reads {A B : Type} (f : A -> heap -> heap * outcome B)
    (g : A -> B) (l : list A) (h : heap) :
  Forall (fun x => f x h = (h, Returns (g x))) l ->
  InPlace.comprehension f l h = (h, Returns (g <$> l)).
Proof.
  induction 1 as [|x l Hx _ IH]; [reflexivity|].
  cbn [InPlace.comprehension]. rewrite (bind_returns _ _ _ _ _ Hx).
  now rewrite (bind_returns _ _ _ _ _ IH).
Qed.

(** The row of the subject in progress is a new object. *)
Lemma subject_row_spec (h0 h : heap) fr st :
  store_inv h0 h fr st ->
  InPlace.subject_row fr h =
    (<[fresh (dom h) := StrList (current_subject st :: book_fields (book_pages st))]> h,
     Returns (fresh (dom h))).
Proof.
  intros (_ & _ & Hsubj & _ & items & Hd & _ & Hitems).
  unfold InPlace.subject_row.
  rewrite (bind_returns _ _ h h (book_fields (book_pages st))).
  - now rewrite Hsubj.
  - unfold book_fields. apply comprehension_reads. rewrite py_range_1_7.
    repeat (apply List.Forall_cons; [|]); try apply List.Forall_nil;
      (match goal with
       | |- InPlace.bind _ _ _ = (_, Returns (format_pages (pages_of _ ?i))) =>
           destruct (Hitems i) as (l & Hi & Hl & _); [lia|];
           unfold InPlace.bind, InPlace.dict_item, InPlace.get_strs;
           now rewrite Hd, Hi, Hl
       end).
Qed.

(** ** The dictionary of page lists in the store *)

Lemma rows_inv_row_places (h0 h : heap) place rows l :
  rows_inv h0 h place rows -> In l (row_places h place) -> is_Some (h !! l).
Proof.
  intros Hrows Hin. destruct Hrows as (places & Hp & H0 & Hall) eqn:E. clear E.
  unfold row_places in Hin. rewrite Hp in Hin.
  assert (rows_inv h0 h place rows) as Hinv by (exists places; auto).
  pose proof (rows_inv_places _ _ _ _ _ Hinv Hp) as HF.
  rewrite List.Forall_forall in HF. now apply HF.
Qed.

Lemma row_places_weaken (h0 h h' : heap) place rows :
  rows_inv h0 h place rows -> h ⊆ h' -> row_places h' place = row_places h place.
Proof.
  intros (places & Hp & _) Hsub. unfold row_places.
  now rewrite (lookup_weaken _ _ _ _ Hp Hsub), Hp.
Qed.

(** [{i: [] for i in range(1, 7)}] makes seven new objects: six empty
    lists and the dictionary that holds them. *)
Lemma new_book_pages_spec (h0 h : heap) place rows :
  h0 ⊆ h -> rows_inv h0 h place rows ->
  exists (h' : heap) d,
    InPlace.new_book_pages h = (h', Returns d)
    /\ h ⊆ h'
    /\ pages_inv h0 h' place d fresh_pages.
Proof.
  intros Hsub Hrows. unfold InPlace.new_book_pages.
  destruct (new_lists_spec (py_range 1 7) ∅ h)
    as (h1 & items & Hrun & Hsub1 & Hinj & Hitems & Hkeys).
  { intros i j l Hi. now rewrite lookup_empty in Hi. }
  { intros i l Hi. now rewrite lookup_empty in Hi. }
  rewrite (bind_returns _ _ _ _ _ Hrun), new_object_spec.
  pose proof (fresh_place h1) as Hfresh. set (d := fresh (dom h1)) in *.
  exists (<[d := Dict items]> h1), d. split; [reflexivity|].
  assert (h ⊆ <[d := Dict items]> h1) as Hsub2.
  { etransitivity; [exact Hsub1|]. now apply insert_subseteq. }
  split; [exact Hsub2|]. split; [exact has_books_fresh|].
  exists items. split; [apply lookup_insert_eq|]. split; [exact Hinj|].
  intros i Hi. destruct (Hkeys i) as [l Hl].
  { right. rewrite py_range_1_7.
    assert (i = 1 \/ i = 2 \/ i = 3 \/ i = 4 \/ i = 5 \/ i = 6)%Z as Hc by lia.
    simpl. intuition auto. }
  exists l. split; [exact Hl|].
  destruct (Hitems i l Hl) as [[He _]|(_ & Hl1 & Hl0)];
    [now rewrite lookup_empty in He|].
  split; [|split].
  - rewrite lookup_insert_ne by (intros <-; congruence).
    now rewrite pages_of_fresh.
  - eapply subseteq_none; eauto.
  - rewrite (row_places_weaken _ _ _ _ _ Hrows Hsub2). intros Hin.
    destruct (rows_inv_row_places _ _ _ _ _ Hrows Hin) as [o Ho]. congruence.
Qed.

(** One reference: the page goes to the end of the list of its book,
    and to no other object. *)
Lemma add_ref_follows (h0 h : heap) place d rows pages tok :
  h0 ⊆ h -> rows_inv h0 h place rows -> pages_inv h0 h place d pages ->
  match add_ref pages tok with
  | Ok pages' =>
      exists h' : heap,
        InPlace.add_ref d tok h = (h', Returns tt)
        /\ h0 ⊆ h'
        /\ rows_inv h0 h' place rows
        /\ pages_inv h0 h' place d pages'
  | Raise e => InPlace.add_ref d tok h = (h, Raises e)
  end.
Proof.
  intros Hsub Hrows Hpages. unfold add_ref, InPlace.add_ref.
  destruct (ref_pattern_match (strip tok)) as [[book page]|];
    [|exists h; split; [reflexivity|]; auto].
  destruct (py_int book) as [b|e]; cbn [bind]; [|reflexivity].
  unfold InPlace.bind at 1. cbn [InPlace.lift].
  destruct ((1 <=? b)%Z && (b <=? 6)%Z) eqn:Hb; [|exists h; split; [reflexivity|]; auto].
  assert (1 <= b <= 6)%Z as Hb' by lia.
  destruct Hpages as (Hbooks & items & Hd & Hinj & Hitems).
  rewrite (dict_get_pages_of _ _ Hbooks Hb'). cbn [bind].
  destruct (Hitems b Hb') as (l & Hl & Hhl & Hl0 & Hnot).
  unfold InPlace.bind, InPlace.dict_item, InPlace.append_str.
  rewrite Hd, Hl, Hhl.
  destruct Hrows as (places & Hp & Hp0 & Hall).
  assert (row_places h place = places) as Hrp by (unfold row_places; now rewrite Hp).
  assert (l <> place) as Hlp by (intros ->; congruence).
  assert (l <> d) as Hld by (intros ->; congruence).
  eexists. split; [reflexivity|]. split; [|split].
  - now apply insert_subseteq_r.
  - exists places. split; [now rewrite lookup_insert_ne|]. split; [exact Hp0|].
    rewrite Hrp in Hnot. clear Hp Hrp.
    induction Hall as [|x row ps rs [Hx Hx0] _ IH]; constructor.
    + split; [|exact Hx0]. rewrite lookup_insert_ne; [exact Hx|].
      intros <-. apply Hnot. now left.
    + apply IH. intros Hin. apply Hnot. now right.
  - split; [now apply has_books_insert|].
    exists items. split; [now rewrite lookup_insert_ne|]. split; [exact Hinj|].
    intros i Hi. destruct (Hitems i Hi) as (li & Hli & Hhli & Hli0 & Hnoti).
    exists li. split; [exact Hli|]. rewrite pages_of_insert.
    assert (row_places (<[l := StrList (pages_of pages b ++ [page])]> h) place
            = row_places h place) as ->.
    { unfold row_places. now rewrite lookup_insert_ne. }
    destruct (Z.eqb_spec b i) as [<-|Hne].
    + assert (li = l) as -> by congruence.
      rewrite lookup_insert_eq. auto.
    + rewrite lookup_insert_ne; [auto|].
      intros <-. apply Hne. eapply Hinj; eauto.
Qed.

(** The loop over the references of a line. *)
Lemma for_each_add_ref_follows toks (h0 h : heap) place d rows pages :
  h0 ⊆ h -> rows_inv h0 h place rows -> pages_inv h0 h place d pages ->
  match foldM add_ref pages toks with
  | Ok pages' =>
      exists h' : heap,
        InPlace.for_each (InPlace.add_ref d) toks h = (h', Returns tt)
        /\ h0 ⊆ h'
        /\ rows_inv h0 h' place rows
        /\ pages_inv h0 h' place d pages'
  | Raise e =>
      exists h' : heap,
        InPlace.for_each (InPlace.add_ref d) toks h = (h', Raises e) /\ h0 ⊆ h'
  end.
Proof.
  revert h pages. induction toks as [|tok toks IH]; intros h pages Hsub Hrows Hpages.
  - exists h. split; [reflexivity|]. auto.
  - cbn [foldM InPlace.for_each].
    pose proof (add_ref_follows _ _ _ _ _ _ tok Hsub Hrows Hpages) as Hstep.
    destruct (add_ref pages tok) as [pages1|e]; cbn [bind].
    + destruct Hstep as (h1 & Hrun & Hsub1 & Hrows1 & Hpages1).
      rewrite (bind_returns _ _ _ _ _ Hrun). now apply IH.
    + exists h. split; [|exact Hsub]. now rewrite (bind_raises _ _ _ _ _ Hstep).
Qed.

(** ** The steps of the loop on the store *)

Lemma follows_bind (h0 h : heap) m r k kr :
  follows h0 h m r ->
  (forall (h' : heap) fr st,
     store_inv h0 h' fr st -> follows h0 h' (k fr) (kr st)) ->
  follows h0 h (InPlace.bind m k) (bind r kr).
Proof.
  intros Hm Hk. destruct r as [st|e]; cbn [bind].
  - destruct Hm as (h1 & fr & Hrun & Hinv).
    specialize (Hk _ _ _ Hinv). unfold follows in *.
    now rewrite (bind_returns _ _ _ _ _ Hrun).
  - destruct Hm as (h1 & Hrun & Hsub). exists h1.
    split; [|exact Hsub]. now rewrite (bind_raises _ _ _ _ _ Hrun).
Qed.

Lemma follows_ret (h0 h : heap) fr st :
  store_inv h0 h fr st -> follows h0 h (InPlace.ret fr) (Ok st).
Proof. intros H. exists h, fr. split; [reflexivity | exact H]. Qed.

Lemma follows_after {A : Type} (h0 h h1 : heap)
    (m : heap -> heap * outcome A) a k r :
  m h = (h1, Returns a) -> follows h0 h1 (k a) r ->
  follows h0 h (InPlace.bind m k) r.
Proof. intros Hm. unfold follows. now rewrite (bind_returns _ _ _ _ _ Hm). Qed.

(** The row of the subject in progress, appended to [data]. *)
Lemma emit_subject (h0 h : heap) fr st :
  store_inv h0 h fr st ->
  exists h2 : heap,
    InPlace.bind (InPlace.subject_row fr)
                 (fun row => InPlace.append_row (InPlace.data fr) row) h
    = (h2, Returns tt)
    /\ h0 ⊆ h2
    /\ rows_inv h0 h2 (InPlace.data fr)
         (data st ++ [current_subject st :: book_fields (book_pages st)]).
Proof.
  intros Hinv. rewrite (bind_returns _ _ _ _ _ (subject_row_spec _ _ _ _ Hinv)).
  destruct Hinv as (Hsub & Hrows & _).
  destruct (rows_inv_emit _ _ _ _
              (current_subject st :: book_fields (book_pages st)) Hsub Hrows)
    as (h2 & Hrun & Hsub2 & Hrows2 & _).
  exists h2. auto.
Qed.

(** The reset of lines 106 and 107, 123 and 124: a new dictionary, and
    no subject. *)
Lemma reset_follows (h0 h : heap) place rows :
  h0 ⊆ h -> rows_inv h0 h place rows ->
  follows h0 h
    (InPlace.bind InPlace.new_book_pages
       (fun pages => InPlace.ret {| InPlace.data := place;
                                    InPlace.current_subject := EmptyString;
                                    InPlace.book_pages := pages |}))
    (Ok {| data := rows; current_subject := EmptyString; book_pages := fresh_pages |}).
Proof.
  intros Hsub Hrows.
  destruct (new_book_pages_spec _ _ _ _ Hsub Hrows) as (h' & d & Hrun & Hsub' & Hpages).
  unfold follows. eexists h', _.
  split; [rewrite (bind_returns _ _ _ _ _ Hrun); reflexivity|].
  split; [now transitivity h|]. split; [|split; [reflexivity | exact Hpages]].
  eapply rows_inv_weaken; eauto.
Qed.

Lemma flush_follows (h0 h : heap) fr st :
  store_inv h0 h fr st -> follows h0 h (InPlace.flush fr) (flush st).
Proof.
  intros Hinv. pose proof Hinv as (_ & _ & _ & Hbooks & _).
  rewrite (flush_Ok _ Hbooks). unfold InPlace.flush.
  eapply follows_after; [exact (subject_row_spec _ _ _ _ Hinv)|].
  destruct Hinv as (Hsub & Hrows & _).
  destruct (rows_inv_emit _ _ _ _
              (current_subject st :: book_fields (book_pages st)) Hsub Hrows)
    as (h2 & Hrun & Hsub2 & Hrows2 & _).
  eapply follows_after; [exact Hrun|].
  now apply reset_follows.
Qed.

Lemma divider_line_follows (h0 h : heap) fr st line :
  store_inv h0 h fr st ->
  follows h0 h (InPlace.divider_line fr line) (divider_line st line).
Proof.
  intros Hinv. pose proof Hinv as (Hsub & Hrows & Hsubj & Hbooks & _).
  unfold divider_line, InPlace.divider_line. rewrite Hsubj.
  assert (exists (h1 : heap) rows1,
            (if truthy (current_subject st)
             then row <- subject_row st ;; Ok (data st ++ [row])
             else Ok (data st)) = Ok rows1
            /\ (if truthy (current_subject st)
                then InPlace.bind (InPlace.subject_row fr)
                       (fun row => InPlace.append_row (InPlace.data fr) row)
                else InPlace.ret tt) h = (h1, Returns tt)
            /\ h0 ⊆ h1 /\ rows_inv h0 h1 (InPlace.data fr) rows1)
    as (h1 & rows1 & -> & Hrun1 & Hsub1 & Hrows1).
  { destruct (truthy (current_subject st)).
    - rewrite (subject_row_Ok _ Hbooks). cbn [bind].
      destruct (emit_subject _ _ _ _ Hinv) as (h2 & Hrun & Hsub2 & Hrows2).
      exists h2. eauto.
    - exists h, (data st). auto. }
  cbn [bind]. eapply follows_after; [exact Hrun1|].
  eapply follows_after; [apply new_object_spec|].
  destruct (rows_inv_emit _ _ _ _ (divider_row line) Hsub1 Hrows1)
    as (h2 & Hrun & Hsub2 & Hrows2 & _).
  eapply follows_after; [exact Hrun|].
  now apply reset_follows.
Qed.

Lemma capture_subject_follows (h0 h : heap) fr st line parts :
  store_inv h0 h fr st ->
  follows h0 h (InPlace.capture_subject fr line parts) (capture_subject st line parts).
Proof.
  intros Hinv. pose proof Hinv as (Hsub & Hrows & Hsubj & Hpages).
  unfold capture_subject, InPlace.capture_subject. rewrite Hsubj.
  destruct (negb (truthy (current_subject st)) && negb (endswith line ","));
    [|now apply follows_ret].
  destruct (list_get parts 0) as [p0|e]; cbn [bind].
  - eexists h, _. split; [reflexivity|].
    split; [exact Hsub|]. split; [exact Hrows|]. split; [reflexivity | exact Hpages].
  - exists h. split; [reflexivity | exact Hsub].
Qed.

Lemma collect_refs_follows (h0 h : heap) fr st parts :
  store_inv h0 h fr st ->
  follows h0 h (InPlace.collect_refs fr parts) (collect_refs st parts).
Proof.
  intros (Hsub & Hrows & Hsubj & Hpages).
  unfold collect_refs, InPlace.collect_refs.
  destruct (list_get parts 1) as [p1|e]; cbn [bind];
    [|exists h; split; [reflexivity | exact Hsub]].
  unfold InPlace.bind at 1. cbn [InPlace.lift].
  pose proof (for_each_add_ref_follows (split_commas (rstrip_commas p1))
                _ _ _ _ _ _ Hsub Hrows Hpages) as Hloop.
  destruct (foldM add_ref (book_pages st) (split_commas (rstrip_commas p1)))
    as [pages'|e]; cbn [bind].
  - destruct Hloop as (h' & Hrun & Hsub' & Hrows' & Hpages').
    exists h', fr. split; [now rewrite (bind_returns _ _ _ _ _ Hrun)|].
    split; [exact Hsub'|]. split; [exact Hrows'|]. split; [exact Hsubj | exact Hpages'].
  - destruct Hloop as (h' & Hrun & Hsub'). exists h'.
    split; [now rewrite (bind_raises _ _ _ _ _ Hrun) | exact Hsub'].
Qed.

Lemma flush_check_follows (h0 h : heap) fr st line :
  store_inv h0 h fr st ->
  follows h0 h (InPlace.flush_check fr line) (flush_check st line).
Proof.
  intros Hinv. pose proof Hinv as (_ & _ & Hsubj & _).
  unfold flush_check, InPlace.flush_check. rewrite Hsubj.
  destruct (negb (endswith line ",") && truthy (current_subject st)).
  - now apply flush_follows.
  - now apply follows_ret.
Qed.

Lemma content_line_follows (h0 h : heap) fr st line :
  store_inv h0 h fr st ->
  follows h0 h (InPlace.content_line fr line) (content_line st line).
Proof.
  intros Hinv. unfold content_line, InPlace.content_line.
  apply follows_bind.
  - destruct (1 <? length (split_parts line))%nat.
    + apply follows_bind; [now apply capture_subject_follows|].
      intros h' fr' st' Hinv'. now apply collect_refs_follows.
    + now apply follows_ret.
  - intros h' fr' st' Hinv'. now apply flush_check_follows.
Qed.

Lemma process_line_follows (h0 h : heap) fr st raw :
  store_inv h0 h fr st ->
  follows h0 h (InPlace.process_line fr raw) (process_line st raw).
Proof.
  intros Hinv. unfold process_line, InPlace.process_line.
  destruct (negb (truthy (strip raw))); [now apply follows_ret|].
  destruct (is_divider (strip raw)).
  - now apply divider_line_follows.
  - now apply content_line_follows.
Qed.

Lemma run_follows lines (h0 h : heap) fr st :
  store_inv h0 h fr st ->
  follows h0 h (InPlace.run fr lines) (run st lines).
Proof.
  revert h fr st. induction lines as [|raw lines IH]; intros h fr st Hinv.
  - now apply follows_ret.
  - unfold run. cbn [foldM InPlace.run]. apply follows_bind.
    + now apply process_line_follows.
    + intros h' fr' st' Hinv'. now apply IH.
Qed.

(** ** One call *)

(** A call starts from an empty list of rows, no subject and six empty
    page lists, all of them new objects, whatever the store holds. *)
Lemma start_spec (h : heap) :
  exists (h' : heap) fr,
    InPlace.start h = (h', Returns fr) /\ store_inv h h' fr initial_state.
Proof.
  change (follows h h InPlace.start (Ok initial_state)). unfold InPlace.start.
  eapply follows_after; [apply new_object_spec|].
  pose proof (fresh_place h) as Hfresh. set (l := fresh (dom h)) in *.
  assert (h ⊆ <[l := RowList []]> h) as Hsub by now apply insert_subseteq.
  assert (rows_inv h (<[l := RowList []]> h) l []) as Hrows.
  { exists []. split; [apply lookup_insert_eq|]. split; [exact Hfresh | constructor]. }
  exact (reset_follows _ _ _ _ Hsub Hrows).
Qed.

Lemma finish_spec (h0 h : heap) fr st :
  store_inv h0 h fr st ->
  exists (h' : heap) rows,
    finish st = Ok rows
    /\ InPlace.finish fr h = (h', Returns (InPlace.data fr))
    /\ h0 ⊆ h'
    /\ rows_inv h0 h' (InPlace.data fr) rows.
Proof.
  intros Hinv. pose proof Hinv as (Hsub & Hrows & Hsubj & Hbooks & _).
  unfold finish, InPlace.finish. rewrite Hsubj.
  destruct (truthy (current_subject st)).
  - rewrite (subject_row_Ok _ Hbooks). cbn [bind].
    destruct (emit_subject _ _ _ _ Hinv) as (h2 & Hrun & Hsub2 & Hrows2).
    exists h2. eexists. split; [reflexivity|].
    split; [now rewrite (bind_returns _ _ _ _ _ Hrun)|]. auto.
  - exists h, (data st). auto.
Qed.

Lemma rows_at_weaken (h h' : heap) l rows :
  h ⊆ h' -> rows_at h l = Some rows -> rows_at h' l = Some rows.
Proof.
  intros Hsub. unfold rows_at.
  destruct (h !! l) as [[| places |]|] eqn:Hl; try discriminate.
  rewrite (lookup_weaken _ _ _ _ Hl Hsub). clear Hl.
  revert rows. induction places as [|p places IH]; intros rows; [auto|].
  cbn. destruct (h !! p) as [[fields | |]|] eqn:Hp; try discriminate.
  rewrite (lookup_weaken _ _ _ _ Hp Hsub). cbn.
  destruct (mapM _ places) as [rest|] eqn:Hrest; [|discriminate].
  now rewrite (IH rest eq_refl).
Qed.

Lemma denotes_weaken (h h' : heap) o r :
  h ⊆ h' -> denotes h o r -> denotes h' o r.
Proof.
  intros Hsub. destruct o as [l|e|], r as [rows|e']; cbn; auto.
  now apply rows_at_weaken.
Qed.

(** A call leaves every object of the store as it found it, and ends
    as the function on lines does, in objects of its own. *)
Lemma parse_index_call lines (h : heap) :
  exists (h' : heap) o,
    InPlace.parse_index lines h = (h', o)
    /\ h ⊆ h'
    /\ denotes h' o (parse_index lines)
    /\ made_after h h' o.
Proof.
  unfold InPlace.parse_index, parse_index.
  destruct (start_spec h) as (h1 & fr0 & Hstart & Hinv0).
  rewrite (bind_returns _ _ _ _ _ Hstart).
  pose proof (run_follows lines _ _ _ _ Hinv0) as Hrun.
  destruct (run initial_state lines) as [st|e]; cbn [bind].
  - destruct Hrun as (h2 & fr & Hrun & Hinv).
    rewrite (bind_returns _ _ _ _ _ Hrun).
    destruct (finish_spec _ _ _ _ Hinv) as (h3 & rows & -> & Hfin & Hsub3 & Hrows3).
    exists h3, (Returns (InPlace.data fr)). split; [exact Hfin|].
    split; [exact Hsub3|].
    destruct (rows_inv_rows_at _ _ _ _ Hrows3) as (Hat & Hnew & Hall).
    split; [exact Hat|]. split; [exact Hnew | exact Hall].
  - destruct Hrun as (h2 & Hrun & Hsub2).
    exists h2, (Raises e). split; [now rewrite (bind_raises _ _ _ _ _ Hrun)|].
    cbn. auto.
Qed.

(** C8. Calling [parse_index] twice on the same lines, the second call
    on the store the first one leaves, whatever that store held before:
    both calls return lists that hold the same rows (or both raise the
    same exception, when a book number is too long for [int]); the
    list the first call returned still holds these rows after the
    second call; no object that existed before a call is changed by
    it; the list and the rows of the second call are objects that did
    not exist when it began; and the second call starts, like the
    first, from an empty list of rows, an empty subject and six empty
    page lists, all of them new objects. *)
Theorem parse_index_reinvocable (lines : list string) (h : heap) :
  exists (h1 h2 : heap) o1 o2,
    two_calls lines h = ((h1, o1), (h2, o2))
    /\ h ⊆ h1 /\ h1 ⊆ h2
    /\ denotes h1 o1 (parse_index lines)
    /\ denotes h2 o2 (parse_index lines)
    /\ denotes h2 o1 (parse_index lines)
    /\ made_after h h1 o1
    /\ made_after h1 h2 o2
    /\ exists (h' : heap) fr,
         InPlace.start h1 = (h', Returns fr) /\ store_inv h1 h' fr initial_state.
Proof.
  destruct (parse_index_call lines h) as (h1 & o1 & Hrun1 & Hsub1 & Hden1 & Hnew1).
  destruct (parse_index_call lines h1) as (h2 & o2 & Hrun2 & Hsub2 & Hden2 & Hnew2).
  exists h1, h2, o1, o2. unfold two_calls. rewrite Hrun1. cbn [fst]. rewrite Hrun2.
  split; [reflexivity|]. repeat (split; [assumption|]).
  split; [now apply (denotes_weaken h1)|].
  repeat (split; [assumption|]). apply start_spec.
Qed.
